(** * Workspace settings page and pull-request hook

    A shallow embedding of
    - [src/pages/workspaces/[workspaceId]/settings.tsx]
      ([getServerSideProps], the [WorkspaceSettings] component, its derived
      map [pendingTrackedRepos] and its event handlers), and
    - [src/lib/hooks/api/usePullRequests.ts] (the [usePullRequests] hook).

    JavaScript [Map]s and [Set]s keep their insertion order, and the page
    turns both into arrays ([Array.from]) before sending them; they are
    therefore modelled as insertion-ordered lists. Handlers are written in
    a small state monad over the component state and a log of the effects
    the outside world can observe (requests, toasts, navigation). *)

From Stdlib Require Import Ascii.
From stdpp Require Import list strings pretty.

Local Open Scope string_scope.
Local Open Scope list_scope.
Local Open Scope Z_scope.

(** ** JavaScript [Map<string, V>] *)

Module JSMap.
Section map.
Context {V : Type}.

(** The entries in insertion order. *)
Definition t := list (string * V).

Definition empty : t := [].

Definition entries (m : t) : list (string * V) := m.

Definition keys (m : t) : list string := m.*1.

(** [m.has(k)] *)
Definition has (k : string) (m : t) : bool := bool_decide (k ∈ keys m).

(** [m.set(k, v)]: an existing key keeps its position and takes the new
    value, a new key goes to the end. *)
Fixpoint set (k : string) (v : V) (m : t) : t :=
  match m with
  | [] => [(k, v)]
  | (k', v') :: m' =>
      if decide (k = k') then (k, v) :: m' else (k', v') :: set k v m'
  end.

(** [m.delete(k)] *)
Definition delete (k : string) (m : t) : t :=
  filter (λ e, e.1 ≠ k) m.

(** [new Map(iterable)]: the entries are [set] one after the other. *)
Definition from_entries (es : list (string * V)) : t :=
  foldl (λ m e, set e.1 e.2 m) empty es.

(** [m.forEach((v, k) => { if (p(k)) m.delete(k) })]. Deleting the entry
    being visited leaves the entries not yet visited in place, so the
    callback runs once on each entry the map had when the loop started;
    [todo] is what is left to visit. *)
Fixpoint forEach_delete_if (p : string → bool) (todo : list (string * V)) (m : t) : t :=
  match todo with
  | [] => m
  | (k, _) :: rest => forEach_delete_if p rest (if p k then delete k m else m)
  end.
End map.
Global Arguments t : clear implicits.
End JSMap.

(** ** JavaScript [Set<string>] *)

Module JSSet.
(** The elements in insertion order. *)
Definition t := list string.

Definition empty : t := [].

Definition elements (s : t) : list string := s.

(** [s.has(x)] *)
Definition has (x : string) (s : t) : bool := bool_decide (x ∈ s).

(** [s.add(x)] *)
Definition add (x : string) (s : t) : t :=
  if has x s then s else s ++ [x].

(** [new Set(iterable)] *)
Definition from_list (xs : list string) : t :=
  foldl (λ s x, add x s) empty xs.
End JSSet.

(** ** Nullable objects *)

(** A nullable object in a condition: truthy exactly when it is there. *)
Definition truthy {A : Type} (o : option A) : bool :=
  match o with Some _ => true | None => false end.

(** ** The settings page, [settings.tsx] *)

Module Settings.

Record Workspace := {
  id : string;
  name : string;
  description : string;
}.

(** The error half of what [fetchApiData] and the workspace utilities
    answer. *)
Record ApiError := {
  status : Z;
  message : string;
}.

(** [{ data, error }]: both fields are nullable. *)
Record ApiResult (A : Type) := {
  data : option A;
  error : option ApiError;
}.
Global Arguments data {A} _.
Global Arguments error {A} _.

(** [{ full_name }] *)
Record Repo := { full_name : string }.

(** One row of the workspace's repositories: [{ repo: { full_name } }]. *)
Record WorkspaceRepo := { repo : Repo }.

(** What [useGetWorkspaceRepositories] answers: [data] is undefined until
    the request has answered, and [data.data] is optional too. *)
Record WorkspaceRepositories := { rows : option (list WorkspaceRepo) }.

(** *** The [useState] cells of [WorkspaceSettings] *)

Record State := {
  isDeleteModalOpen : bool;
  workspaceName : string;
  trackedReposModalOpen : bool;
  trackedRepos : JSMap.t bool;
  trackedReposPendingDeletion : JSSet.t;
}.

(** The initial values, for the [workspace] prop. *)
Definition initialState (workspace : Workspace) : State :=
  {| isDeleteModalOpen := false;
     workspaceName := name workspace;
     trackedReposModalOpen := false;
     trackedRepos := JSMap.empty;
     trackedReposPendingDeletion := JSSet.empty |}.

(** [data?.data?.map(({ repo }) => repo.full_name) ?? []] *)
Definition initialTrackedRepos (response : option WorkspaceRepositories) : list string :=
  match response with
  | Some r =>
      match rows r with
      | Some rs => map (λ row, full_name (repo row)) rs
      | None => []
      end
  | None => []
  end.

(** The derived map shown in the table: the initial tracked repos and the
    newly selected ones, without those pending deletion. *)
Definition pendingTrackedRepos (response : option WorkspaceRepositories) (s : State) : JSMap.t bool :=
  let pending :=
    JSMap.from_entries
      (map (λ repo, (repo, true)) (initialTrackedRepos response)
       ++ JSMap.entries (trackedRepos s)) in
  JSMap.forEach_delete_if
    (λ repo, JSSet.has repo (trackedReposPendingDeletion s))
    (JSMap.entries pending) pending.

(** *** What the handlers do to the outside world *)

Inductive ToastVariant := success | danger.

Record ToastProps := {
  toast_description : string;
  variant : ToastVariant;
}.

Record SaveWorkspaceArgs := {
  save_workspaceId : string;
  save_name : string;
  save_description : string;
  save_sessionToken : option string;
  save_repos : list Repo;
}.

Record DeleteTrackedReposArgs := {
  deleteRepos_workspaceId : string;
  deleteRepos_sessionToken : option string;
  deleteRepos_repos : list Repo;
}.

Record DeleteWorkspaceArgs := {
  delete_workspaceId : string;
  delete_sessionToken : option string;
}.

(** The calls of [lib/utils/workspace-utils]. *)
Inductive Request :=
| SaveWorkspace (args : SaveWorkspaceArgs)
| DeleteTrackedRepos (args : DeleteTrackedReposArgs)
| DeleteWorkspace (args : DeleteWorkspaceArgs).

Inductive Event :=
| PreventDefault
| RequestStarted (r : Request)
| RequestSettled (r : Request) (err : option ApiError)
| Toast (t : ToastProps)
| WorkspaceUpdatedEvent (detail : option Workspace)
| MutateTrackedRepos
| RouterPush (url : string)
| ConsoleError (text : string).

(** The component state as the pending [setState] calls leave it, and the
    effects so far, oldest first. *)
Record World := {
  state : State;
  effects : list Event;
}.

(** *** The monad of the handlers *)

Definition M (A : Type) : Type := World → A * World.

Global Instance M_ret : MRet M := λ A a w, (a, w).

Global Instance M_bind : MBind M := λ A B k c w, let '(a, w') := c w in k a w'.

Definition emit (e : Event) : M unit :=
  λ w, (tt, {| state := state w; effects := effects w ++ [e] |}).

Definition setState (f : State → State) : M unit :=
  λ w, (tt, {| state := f (state w); effects := effects w |}).

(** A handler runs on the state of the render that made it. *)
Definition run {A} (handler : State → M A) (s : State) : A * World :=
  handler s {| state := s; effects := [] |}.

(** The setters of the [useState] cells; each takes an updater, and a
    plain value [v] is the updater [λ _, v]. *)
Definition setIsDeleteModalOpen (f : bool → bool) : M unit :=
  setState (λ s,
    {| isDeleteModalOpen := f (isDeleteModalOpen s);
       workspaceName := workspaceName s;
       trackedReposModalOpen := trackedReposModalOpen s;
       trackedRepos := trackedRepos s;
       trackedReposPendingDeletion := trackedReposPendingDeletion s |}).

Definition setWorkspaceName (f : string → string) : M unit :=
  setState (λ s,
    {| isDeleteModalOpen := isDeleteModalOpen s;
       workspaceName := f (workspaceName s);
       trackedReposModalOpen := trackedReposModalOpen s;
       trackedRepos := trackedRepos s;
       trackedReposPendingDeletion := trackedReposPendingDeletion s |}).

Definition setTrackedReposModalOpen (f : bool → bool) : M unit :=
  setState (λ s,
    {| isDeleteModalOpen := isDeleteModalOpen s;
       workspaceName := workspaceName s;
       trackedReposModalOpen := f (trackedReposModalOpen s);
       trackedRepos := trackedRepos s;
       trackedReposPendingDeletion := trackedReposPendingDeletion s |}).

Definition setTrackedRepos (f : JSMap.t bool → JSMap.t bool) : M unit :=
  setState (λ s,
    {| isDeleteModalOpen := isDeleteModalOpen s;
       workspaceName := workspaceName s;
       trackedReposModalOpen := trackedReposModalOpen s;
       trackedRepos := f (trackedRepos s);
       trackedReposPendingDeletion := trackedReposPendingDeletion s |}).

Definition setTrackedReposPendingDeletion (f : JSSet.t → JSSet.t) : M unit :=
  setState (λ s,
    {| isDeleteModalOpen := isDeleteModalOpen s;
       workspaceName := workspaceName s;
       trackedReposModalOpen := trackedReposModalOpen s;
       trackedRepos := trackedRepos s;
       trackedReposPendingDeletion := f (trackedReposPendingDeletion s) |}).

Definition toast (t : ToastProps) : M unit := emit (Toast t).

(** [document.dispatchEvent(new CustomEvent(WORKSPACE_UPDATED_EVENT, { detail }))];
    the constant's value lives in [AppSidebar] and is left abstract. *)
Definition dispatchWorkspaceUpdated (detail : option Workspace) : M unit :=
  emit (WorkspaceUpdatedEvent detail).

(** [mutate] of [useGetWorkspaceRepositories]: asks for the list again. *)
Definition mutateTrackedRepos : M unit := emit MutateTrackedRepos.

Definition router_push (url : string) : M unit := emit (RouterPush url).

Definition console_error (text : string) : M unit := emit (ConsoleError text).

(** *** Requests and promises *)

(** What the page is given from outside: the session token of
    [useSupabaseAuth] and what the backend answers to each call. The data of
    the two deletions is never read by the page. *)
Record Env := {
  sessionToken : option string;
  saveWorkspace_answer : SaveWorkspaceArgs → ApiResult Workspace;
  deleteTrackedRepos_answer : DeleteTrackedReposArgs → ApiResult unit;
  deleteWorkspace_answer : DeleteWorkspaceArgs → ApiResult unit;
}.

(** The operand of an [await]: the promise of a request in flight, with the
    answer it will settle to, or a value that is there already. *)
Inductive Awaitable (A : Type) :=
| Promise (r : Request) (answer : A)
| Value (a : A).
Global Arguments Promise {A} _ _.
Global Arguments Value {A} _.

(** Calling one of the utilities starts the request and hands back its
    promise. *)
Definition saveWorkspace (env : Env) (args : SaveWorkspaceArgs) : M (Awaitable (ApiResult Workspace)) :=
  emit (RequestStarted (SaveWorkspace args));;
  mret (Promise (SaveWorkspace args) (saveWorkspace_answer env args)).

Definition deleteTrackedRepos (env : Env) (args : DeleteTrackedReposArgs) : M (Awaitable (ApiResult unit)) :=
  emit (RequestStarted (DeleteTrackedRepos args));;
  mret (Promise (DeleteTrackedRepos args) (deleteTrackedRepos_answer env args)).

Definition deleteWorkspace (env : Env) (args : DeleteWorkspaceArgs) : M (Awaitable (ApiResult unit)) :=
  emit (RequestStarted (DeleteWorkspace args));;
  mret (Promise (DeleteWorkspace args) (deleteWorkspace_answer env args)).

(** [await x]: the handler goes on once the request behind a promise has
    settled; a value is handed over as it is. *)
Definition await {A} (x : Awaitable (ApiResult A)) : M (ApiResult A) :=
  match x with
  | Promise r answer => emit (RequestSettled r (error answer));; mret answer
  | Value a => mret a
  end.

(** [await Promise.all([x, y])] *)
Definition await_Promise_all {A B} (x : Awaitable (ApiResult A)) (y : Awaitable (ApiResult B))
  : M (ApiResult A * ApiResult B) :=
  a ← await x; b ← await y; mret (a, b).

(** [Array.from(map, ([key]) => f(key))] and [Array.from(set, f)] *)
Definition Array_from_Map {V B} (m : JSMap.t V) (f : string → B) : list B :=
  map (λ e, f e.1) (JSMap.entries m).

Definition Array_from_Set {B} (s : JSSet.t) (f : string → B) : list B :=
  map f (JSSet.elements s).

(** *** The handlers *)

(** The submitted form: [formData.get("name")], [formData.get("description")]. *)
Record FormData := {
  form_name : string;
  form_description : string;
}.

Definition updateWorkspace (env : Env) (workspace : Workspace) (form : FormData) (s : State) : M unit :=
  emit PreventDefault;;
  let name := form_name form in
  let description := form_description form in
  workspaceUpdate ←
    saveWorkspace env
      {| save_workspaceId := id workspace;
         save_name := name;
         save_description := description;
         save_sessionToken := sessionToken env;
         save_repos := Array_from_Map (trackedRepos s) (λ repo, {| full_name := repo |}) |}
    ≫= await;
  workspaceRepoDeletes ←
    deleteTrackedRepos env
      {| deleteRepos_workspaceId := id workspace;
         deleteRepos_sessionToken := sessionToken env;
         deleteRepos_repos :=
           Array_from_Set (trackedReposPendingDeletion s) (λ repo, {| full_name := repo |}) |}
    ≫= await;
  '(update, deletes) ← await_Promise_all (Value workspaceUpdate) (Value workspaceRepoDeletes);
  if truthy (error update) || truthy (error deletes) then
    toast {| toast_description := "Workspace update failed"; variant := danger |}
  else
    setWorkspaceName (λ _, name);;
    dispatchWorkspaceUpdated (data update);;
    mutateTrackedRepos;;
    setTrackedReposPendingDeletion (λ _, JSSet.empty);;
    setTrackedRepos (λ _, JSMap.empty);;
    toast {| toast_description := "Workspace updated successfully"; variant := success |}.

(** [onAddRepos] of the table. *)
Definition onAddRepos (s : State) : M unit :=
  setTrackedReposModalOpen (λ _, true).

(** [onRemoveTrackedRepo] of the table; [dataset_repo] is
    [event.currentTarget.dataset.repo], falsy when absent or empty. *)
Definition onRemoveTrackedRepo (dataset_repo : option string) (s : State) : M unit :=
  match dataset_repo with
  | Some repo =>
      if bool_decide (repo = "") then
        console_error "The tracked repo to remove was not found"
      else
        setTrackedRepos (λ repos, JSMap.delete repo (JSMap.from_entries (JSMap.entries repos)));;
        setTrackedReposPendingDeletion (λ repos, JSSet.from_list (JSSet.elements repos ++ [repo]))
  | None => console_error "The tracked repo to remove was not found"
  end.

(** The updater of [onAddToTrackingList]: [repos.forEach] on a copy of the
    tracked repos. *)
Definition addToTrackingList (repos : JSMap.t bool) (trackedRepos : JSMap.t bool) : JSMap.t bool :=
  foldl
    (λ updates e,
       let '(repo, isSelected) := e in
       if isSelected : bool then JSMap.set repo true updates else JSMap.delete repo updates)
    (JSMap.from_entries (JSMap.entries trackedRepos))
    (JSMap.entries repos).

(** The three callbacks of the tracked repos modal. *)
Definition onClose (s : State) : M unit :=
  setTrackedReposModalOpen (λ _, false).

Definition onAddToTrackingList (repos : JSMap.t bool) (s : State) : M unit :=
  setTrackedReposModalOpen (λ _, false);;
  setTrackedRepos (addToTrackingList repos).

Definition onCancel (s : State) : M unit :=
  setTrackedReposModalOpen (λ _, false).

(** The "Delete workspace" button, and [onClose] of its modal. *)
Definition onClickDeleteWorkspace (s : State) : M unit :=
  setIsDeleteModalOpen (λ _, true).

Definition onCloseDeleteModal (s : State) : M unit :=
  setIsDeleteModalOpen (λ _, false).

(** [onDelete] of the delete workspace modal. *)
Definition onDelete (env : Env) (workspace : Workspace) (s : State) : M unit :=
  answer ←
    deleteWorkspace env
      {| delete_workspaceId := id workspace; delete_sessionToken := sessionToken env |}
    ≫= await;
  if truthy (error answer) then
    toast {| toast_description := "Workspace delete failed"; variant := danger |}
  else
    toast {| toast_description := "Workspace deleted successfully"; variant := success |};;
    router_push "/workspaces/new".

(** *** [getServerSideProps] *)

Record Session := { access_token : string }.

(** What the server is given: the route parameter ([context.params?.workspaceId]),
    the session of the request's cookies, and [fetchApiData] as a function
    of the path and the bearer token. *)
Record ServerContext := {
  params_workspaceId : option string;
  getSession : option Session;
  fetchApiData : string → string → ApiResult Workspace;
}.

Inductive ServerSideResult :=
| NotFound
| PageProps (workspace : option Workspace).

(** How an [async] function ends. *)
Inductive Completion (A : Type) :=
| Return (a : A)
| Throw (error_message : string).
Global Arguments Return {A} _.
Global Arguments Throw {A} _.

(** A possibly undefined string inside a template literal. *)
Definition interpolate (o : option string) : string := default "undefined" o.

Definition getServerSideProps (context : ServerContext) : Completion ServerSideResult :=
  let bearerToken :=
    match getSession context with
    | Some session => access_token session
    | None => ""
    end in
  let workspaceId := params_workspaceId context in
  let answer := fetchApiData context ("workspaces/" +:+ interpolate workspaceId) bearerToken in
  match error answer with
  | Some error =>
      if bool_decide (status error = 404) then Return NotFound
      else Throw ("Error loading workspaces page with ID " +:+ interpolate workspaceId)
  | None => Return (PageProps (data answer))
  end.

(** *** Reading a log *)

Definition toasts (log : list Event) : list ToastProps :=
  omap (λ e, match e with Toast t => Some t | _ => None end) log.

Definition navigations (log : list Event) : list string :=
  omap (λ e, match e with RouterPush url => Some url | _ => None end) log.

Definition requests (log : list Event) : list Request :=
  omap (λ e, match e with RequestStarted r => Some r | _ => None end) log.

Definition is_save_settled (e : Event) : bool :=
  match e with RequestSettled (SaveWorkspace _) _ => true | _ => false end.

Definition is_delete_repos_started (e : Event) : bool :=
  match e with RequestStarted (DeleteTrackedRepos _) => true | _ => false end.

(** The position of the first event that [p] accepts. *)
Fixpoint first_index (p : Event → bool) (log : list Event) : option nat :=
  match log with
  | [] => None
  | e :: log' => if p e then Some 0%nat else S <$> first_index p log'
  end.

(** Two requests overlap when the second is started while the first is
    still in flight: here, the deletion of tracked repos is started before
    the saving of the workspace has settled. *)
Definition delete_started_before_save_settled (log : list Event) : bool :=
  match first_index is_delete_repos_started log, first_index is_save_settled log with
  | Some i, Some j => bool_decide (i < j)%nat
  | _, _ => false
  end.

(** For comparison with [updateWorkspace], the requests as the
    specification words them ("two parallel update requests", then "await
    two promises"): both are started, and their promises awaited together. *)
Definition spec_parallel_requests (env : Env)
    (save_args : SaveWorkspaceArgs) (delete_args : DeleteTrackedReposArgs)
  : M (ApiResult Workspace * ApiResult unit) :=
  workspaceUpdate ← saveWorkspace env save_args;
  workspaceRepoDeletes ← deleteTrackedRepos env delete_args;
  await_Promise_all workspaceUpdate workspaceRepoDeletes.

(** The two toasts of [updateWorkspace]. *)
Definition update_failed_toast : ToastProps :=
  {| toast_description := "Workspace update failed"; variant := danger |}.

Definition update_succeeded_toast : ToastProps :=
  {| toast_description := "Workspace updated successfully"; variant := success |}.

(** *** Concrete inputs, for the examples below *)

Definition workspace1 : Workspace :=
  {| id := "w1"; name := "Old name"; description := "A workspace" |}.

Definition ok {A} (a : option A) : ApiResult A := {| data := a; error := None |}.

Definition failed {A} (code : Z) : ApiResult A :=
  {| data := None; error := Some {| status := code; message := "failed" |} |}.

(** A backend where everything succeeds, and one where the deletions fail. *)
Definition env_ok : Env :=
  {| sessionToken := Some "token";
     saveWorkspace_answer := λ args,
       ok (Some {| id := save_workspaceId args; name := save_name args;
                   description := save_description args |});
     deleteTrackedRepos_answer := λ _, ok None;
     deleteWorkspace_answer := λ _, ok None |}.

Definition env_delete_fails : Env :=
  {| sessionToken := Some "token";
     saveWorkspace_answer := saveWorkspace_answer env_ok;
     deleteTrackedRepos_answer := λ _, failed 500;
     deleteWorkspace_answer := λ _, failed 500 |}.

Definition state1 : State :=
  {| isDeleteModalOpen := false;
     workspaceName := "Old name";
     trackedReposModalOpen := false;
     trackedRepos := [("e/f", true); ("a/b", true)];
     trackedReposPendingDeletion := ["c/d"] |}.

Definition form1 : FormData :=
  {| form_name := "New name"; form_description := "A workspace" |}.

Definition repositories1 : option WorkspaceRepositories :=
  Some {| rows := Some [ {| repo := {| full_name := "a/b" |} |};
                         {| repo := {| full_name := "c/d" |} |} ] |}.

End Settings.

(** ** The pull-request hook, [usePullRequests.ts] *)

Module PullRequests.

(** A [setState] argument: a new value, or an updater of the old one. *)
Inductive SetStateAction (A : Type) :=
| NewValue (a : A)
| Updater (f : A → A).
Global Arguments NewValue {A} _.
Global Arguments Updater {A} _.

Definition apply_action {A} (action : SetStateAction A) (old : A) : A :=
  match action with
  | NewValue a => a
  | Updater f => f old
  end.

(** The two [useState] cells. Page numbers and limits are integers. *)
Record State := {
  page : Z;
  limit : Z;
}.

Definition initialState : State := {| page := 1; limit := 500 |}.

Definition setPage (action : SetStateAction Z) (st : State) : State :=
  {| page := apply_action action (page st); limit := limit st |}.

Definition setLimit (action : SetStateAction Z) (st : State) : State :=
  {| page := page st; limit := apply_action action (limit st) |}.

Definition stars : Z := 1000.

(** A number in a condition: falsy when zero. *)
Definition truthy_number (n : Z) : bool := negb (n =? 0).

(** A number inside a template literal: its decimal digits. *)
Definition number_to_string (n : Z) : string := pretty n.

Definition baseEndpoint : string := "prs/list".

Definition endpointString (st : State) : string :=
  let pageQuery :=
    if truthy_number (page st) then "page=" +:+ number_to_string (page st) else "" in
  let limitQuery :=
    if truthy_number (limit st) then "&limit=" +:+ number_to_string (limit st) else "" in
  let starsQuery :=
    if truthy_number stars then "&stars=" +:+ number_to_string stars else "" in
  baseEndpoint +:+ "?" +:+ pageQuery +:+ limitQuery +:+ starsQuery.

Record Meta := {
  itemCount : Z;
  meta_limit : Z;
  meta_page : Z;
  hasNextPage : bool;
  hasPreviousPage : bool;
  pageCount : Z;
}.

(** JavaScript's [Error]. *)
Record Error := { message : string }.

Section hook.
(** The rows of the answer; their type is declared outside this file. *)
Context {DbRepoPR : Type}.

Record PaginatedResponse := {
  response_data : list DbRepoPR;
  response_meta : Meta;
}.

(** What [useSWR] answers for a key. *)
Record SWRResponse := {
  swr_data : option PaginatedResponse;
  swr_error : option Error;
}.

(** What the hook returns ([mutate], [setPage] and [setLimit] apart). *)
Record Hook := {
  data : list DbRepoPR;
  meta : Meta;
  isLoading : bool;
  isError : bool;
  hook_page : Z;
}.

Definition emptyMeta : Meta :=
  {| itemCount := 0; meta_limit := 0; meta_page := 0;
     hasNextPage := false; hasPreviousPage := false; pageCount := 0 |}.

(** [useSWR] is the cache: the answer it holds for each key. *)
Definition usePullRequests (useSWR : string → SWRResponse) (st : State) : Hook :=
  let answer := useSWR (endpointString st) in
  let data := swr_data answer in
  let error := swr_error answer in
  {| data := default [] (response_data <$> data);
     meta := default emptyMeta (response_meta <$> data);
     isLoading := negb (truthy error) && negb (truthy data);
     isError := negb (negb (truthy error));
     hook_page := page st |}.
End hook.
Global Arguments PaginatedResponse : clear implicits.
Global Arguments SWRResponse : clear implicits.
Global Arguments Hook : clear implicits.

End PullRequests.

(** ** Strings without an ampersand *)

(** No character of [s] is the separator of the query string. *)
Fixpoint amp_free (s : string) : bool :=
  match s with
  | EmptyString => true
  | String c s' => negb (Ascii.eqb c "&"%char) && amp_free s'
  end.

(** ** The page as a transition system *)

Module Interaction.
Import Settings.

(** What the user can do on the page: submit the form (the backend of that
    moment answers), use the table's two callbacks, the three callbacks of
    the tracked repos modal, the "Delete workspace" button and the two
    callbacks of its modal. *)
Inductive Action :=
| Submit (env : Env) (form : FormData)
| AddRepos
| RemoveTrackedRepo (dataset_repo : option string)
| CloseTrackedReposModal
| AddToTrackingList (repos : JSMap.t bool)
| CancelTrackedReposModal
| ClickDeleteWorkspace
| CloseDeleteModal
| Delete (env : Env).

(** The handler the JSX wires to each of them. *)
Definition handler (workspace : Workspace) (a : Action) : State → M unit :=
  match a with
  | Submit env form => updateWorkspace env workspace form
  | AddRepos => onAddRepos
  | RemoveTrackedRepo dataset_repo => onRemoveTrackedRepo dataset_repo
  | CloseTrackedReposModal => onClose
  | AddToTrackingList repos => onAddToTrackingList repos
  | CancelTrackedReposModal => onCancel
  | ClickDeleteWorkspace => onClickDeleteWorkspace
  | CloseDeleteModal => onCloseDeleteModal
  | Delete env => onDelete env workspace
  end.

(** The state of the next render. *)
Definition step (workspace : Workspace) (s : State) (a : Action) : State :=
  state (run (handler workspace a) s).2.

Definition steps (workspace : Workspace) (s : State) (actions : list Action) : State :=
  foldl (step workspace) s actions.

Definition is_submit (a : Action) : bool :=
  match a with Submit _ _ => true | _ => false end.

(** A map of booleans that holds no value but [true]. *)
Definition all_true (m : JSMap.t bool) : Prop :=
  Forall (λ e, e.2 = true) (JSMap.entries m).

(** The two collections are a [Map] and a [Set] (no key, no element twice),
    and the map holds no value but [true]. *)
Definition well_formed (s : State) : Prop :=
  NoDup (JSMap.keys (trackedRepos s))
  ∧ NoDup (JSSet.elements (trackedReposPendingDeletion s))
  ∧ all_true (trackedRepos s).

End Interaction.

(** * Properties *)

(** ** Maps and sets *)

Section map_facts.
Context {V : Type}.
Implicit Types (m : JSMap.t V) (k : string) (v : V).

Lemma has_true k m : JSMap.has k m = true ↔ k ∈ JSMap.keys m.
Proof. unfold JSMap.has. by rewrite bool_decide_eq_true. Qed.

Lemma has_false k m : JSMap.has k m = false ↔ k ∉ JSMap.keys m.
Proof. unfold JSMap.has. by rewrite bool_decide_eq_false. Qed.

Lemma keys_set k' k v m :
  k' ∈ JSMap.keys (JSMap.set k v m) ↔ k' = k ∨ k' ∈ JSMap.keys m.
Proof.
  unfold JSMap.keys. induction m as [|[k0 v0] m IH]; simpl.
  - rewrite list_elem_of_singleton, elem_of_nil. tauto.
  - case_decide as Hk; simpl; rewrite !elem_of_cons.
    + subst k0. tauto.
    + rewrite IH. tauto.
Qed.

Lemma keys_delete k' k m :
  k' ∈ JSMap.keys (JSMap.delete k m) ↔ k' ≠ k ∧ k' ∈ JSMap.keys m.
Proof.
  unfold JSMap.keys, JSMap.delete. rewrite !list_elem_of_fmap. split.
  - intros [[k0 v0] [-> Hin]]. apply list_elem_of_filter in Hin as [Hne Hin].
    split; [done|]. by exists (k0, v0).
  - intros [Hne [[k0 v0] [-> Hin]]]. exists (k0, v0). split; [done|].
    by apply list_elem_of_filter.
Qed.

Lemma keys_foldl_set k (es : list (string * V)) m :
  k ∈ JSMap.keys (foldl (λ m e, JSMap.set e.1 e.2 m) m es)
  ↔ k ∈ JSMap.keys m ∨ k ∈ es.*1.
Proof.
  revert m. induction es as [|[k0 v0] es IH]; intros m; simpl.
  - rewrite elem_of_nil. tauto.
  - rewrite IH, keys_set, elem_of_cons. tauto.
Qed.

Lemma keys_from_entries k (es : list (string * V)) :
  k ∈ JSMap.keys (JSMap.from_entries es) ↔ k ∈ es.*1.
Proof.
  unfold JSMap.from_entries. rewrite keys_foldl_set.
  unfold JSMap.keys, JSMap.empty. simpl. rewrite elem_of_nil. tauto.
Qed.

(** The loop deletes the keys it visits that [p] accepts, and no other. *)
Lemma keys_forEach_delete_if p k (todo : list (string * V)) m :
  k ∈ JSMap.keys (JSMap.forEach_delete_if p todo m)
  ↔ k ∈ JSMap.keys m ∧ ¬ (k ∈ todo.*1 ∧ p k = true).
Proof.
  revert m. induction todo as [|[k0 v0] todo IH]; intros m; simpl.
  - rewrite elem_of_nil. tauto.
  - rewrite IH, elem_of_cons. destruct (p k0) eqn:Hp.
    + rewrite keys_delete. split.
      * intros [[Hne Hin] Hrest]. split; [done|]. intros [[->|Hin'] Hpk]; tauto.
      * intros [Hin Hnot]. split; [split; [|done]|].
        -- intros ->. tauto.
        -- tauto.
    + split.
      * intros [Hin Hrest]. split; [done|]. intros [[->|Hin'] Hpk]; [congruence|tauto].
      * intros [Hin Hnot]. tauto.
Qed.

(** Run over the whole map, the loop keeps the keys that [p] rejects. *)
Lemma keys_forEach_delete_if_all p k m :
  k ∈ JSMap.keys (JSMap.forEach_delete_if p (JSMap.entries m) m)
  ↔ k ∈ JSMap.keys m ∧ p k = false.
Proof.
  rewrite keys_forEach_delete_if. unfold JSMap.entries.
  change (m.*1) with (JSMap.keys m).
  destruct (p k); split; intros [Hin H]; split; try done.
  - destruct H. done.
  - intros [_ ?]. done.
Qed.

(** A map never holds a key twice. *)
Lemma NoDup_keys_set k v m :
  NoDup (JSMap.keys m) → NoDup (JSMap.keys (JSMap.set k v m)).
Proof.
  unfold JSMap.keys. induction m as [|[k0 v0] m IH]; simpl; intros Hnd.
  - apply NoDup_singleton.
  - apply NoDup_cons in Hnd as [Hk0 Hnd]. case_decide as Hk; simpl.
    + subst k0. by apply NoDup_cons.
    + apply NoDup_cons. split; [|by apply IH].
      intros Hin. apply (keys_set k0 k v m) in Hin as [->|Hin]; done.
Qed.

Lemma NoDup_keys_delete k m :
  NoDup (JSMap.keys m) → NoDup (JSMap.keys (JSMap.delete k m)).
Proof.
  unfold JSMap.keys, JSMap.delete, JSMap.t. induction m as [|[k0 v0] m IH]; intros Hnd.
  - done.
  - apply NoDup_cons in Hnd as [Hk0 Hnd].
    rewrite filter_cons. case_decide as Hk; [|by apply IH].
    rewrite fmap_cons. apply NoDup_cons. split; [|by apply IH].
    intros Hin. apply (keys_delete k0 k m) in Hin as [_ Hin]. done.
Qed.

Lemma NoDup_keys_from_entries (es : list (string * V)) :
  NoDup (JSMap.keys (JSMap.from_entries es)).
Proof.
  unfold JSMap.from_entries.
  assert (NoDup (JSMap.keys (JSMap.empty (V:=V)))) as Hnd by apply NoDup_nil_2.
  revert Hnd. generalize (JSMap.empty (V:=V)).
  induction es as [|[k0 v0] es IH]; intros m Hnd; simpl; [done|].
  apply IH. by apply NoDup_keys_set.
Qed.

Lemma NoDup_keys_forEach_delete_if p (todo : list (string * V)) m :
  NoDup (JSMap.keys m) → NoDup (JSMap.keys (JSMap.forEach_delete_if p todo m)).
Proof.
  revert m. induction todo as [|[k0 v0] todo IH]; intros m Hnd; simpl; [done|].
  apply IH. destruct (p k0); [by apply NoDup_keys_delete|done].
Qed.
End map_facts.

Lemma set_has_true x (s : JSSet.t) : JSSet.has x s = true ↔ x ∈ JSSet.elements s.
Proof. unfold JSSet.has, JSSet.elements. by rewrite bool_decide_eq_true. Qed.

Lemma set_has_false x (s : JSSet.t) : JSSet.has x s = false ↔ x ∉ JSSet.elements s.
Proof. unfold JSSet.has, JSSet.elements. by rewrite bool_decide_eq_false. Qed.

(** ** The pending tracked repos *)

Section pending_tracked_repos.
Import Settings.
Implicit Types (response : option WorkspaceRepositories) (s : State) (repo : string).

Lemma pendingTrackedRepos_elem_of response s repo :
  repo ∈ JSMap.keys (pendingTrackedRepos response s)
  ↔ (repo ∈ initialTrackedRepos response ∨ repo ∈ JSMap.keys (trackedRepos s))
    ∧ repo ∉ JSSet.elements (trackedReposPendingDeletion s).
Proof.
  unfold pendingTrackedRepos. cbv zeta.
  rewrite keys_forEach_delete_if_all, keys_from_entries.
  rewrite fmap_app, elem_of_app, <- list_fmap_compose.
  change (fst ∘ (λ repo0 : string, (repo0, true))) with (@Datatypes.id string).
  rewrite list_fmap_id, <- not_true_iff_false, set_has_true.
  unfold JSMap.entries, JSMap.keys. tauto.
Qed.

(** C1: for every render state, a repo name is a key of
    [pendingTrackedRepos] if and only if it is one of the initial tracked
    repos or a key of [trackedRepos], and it is not in
    [trackedReposPendingDeletion]. *)
Theorem pendingTrackedRepos_keys response s repo :
  JSMap.has repo (pendingTrackedRepos response s) = true
  ↔ (repo ∈ initialTrackedRepos response ∨ JSMap.has repo (trackedRepos s) = true)
    ∧ JSSet.has repo (trackedReposPendingDeletion s) = false.
Proof.
  rewrite !has_true, set_has_false. apply pendingTrackedRepos_elem_of.
Qed.

(** The derived map is a map: no key twice. *)
Lemma pendingTrackedRepos_NoDup response s :
  NoDup (JSMap.keys (pendingTrackedRepos response s)).
Proof.
  unfold pendingTrackedRepos. cbv zeta.
  apply NoDup_keys_forEach_delete_if, NoDup_keys_from_entries.
Qed.

Example pendingTrackedRepos_state1 :
  pendingTrackedRepos repositories1 state1 = [("a/b", true); ("e/f", true)].
Proof. reflexivity. Qed.

(** [onAddToTrackingList] leaves every cell but the modal flag and
    [trackedRepos] as it was. *)
Lemma onAddToTrackingList_state repos s :
  state (run (onAddToTrackingList repos) s).2
  = {| isDeleteModalOpen := isDeleteModalOpen s;
       workspaceName := workspaceName s;
       trackedReposModalOpen := false;
       trackedRepos := addToTrackingList repos (trackedRepos s);
       trackedReposPendingDeletion := trackedReposPendingDeletion s |}.
Proof. reflexivity. Qed.

(** C8: pending deletion wins over re-addition. For every state, a repo
    in [trackedReposPendingDeletion] is not a key of [pendingTrackedRepos];
    [onAddToTrackingList] leaves [trackedReposPendingDeletion] as it was,
    so the repo is still excluded after it has been selected again. *)
Theorem pending_deletion_wins response s repos repo :
  JSSet.has repo (trackedReposPendingDeletion s) = true →
  let s' := state (run (onAddToTrackingList repos) s).2 in
  JSMap.has repo (pendingTrackedRepos response s) = false
  ∧ trackedReposPendingDeletion s' = trackedReposPendingDeletion s
  ∧ JSMap.has repo (pendingTrackedRepos response s') = false.
Proof.
  intros Hpending s'.
  assert (∀ s0, JSSet.has repo (trackedReposPendingDeletion s0) = true →
                JSMap.has repo (pendingTrackedRepos response s0) = false) as Hout.
  { intros s0 Hs0. apply set_has_true in Hs0.
    apply has_false. rewrite pendingTrackedRepos_elem_of. tauto. }
  split; [by apply Hout|]. split; [done|]. by apply Hout.
Qed.

(** "c/d" is pending deletion in [state1]; selecting it again puts it
    into [trackedRepos] and still not into the table. *)
Lemma pending_deletion_wins_witness :
  JSSet.has "c/d" (trackedReposPendingDeletion state1) = true
  ∧ JSMap.has "c/d" (trackedRepos (state (run (onAddToTrackingList [("c/d", true)]) state1).2)) = true
  ∧ JSMap.has "c/d" (pendingTrackedRepos repositories1 state1) = false
  ∧ trackedReposPendingDeletion (state (run (onAddToTrackingList [("c/d", true)]) state1).2)
    = trackedReposPendingDeletion state1
  ∧ JSMap.has "c/d"
      (pendingTrackedRepos repositories1
         (state (run (onAddToTrackingList [("c/d", true)]) state1).2)) = false.
Proof.
  split; [reflexivity|]. split; [reflexivity|].
  apply (pending_deletion_wins repositories1 state1 [("c/d", true)] "c/d").
  reflexivity.
Defined.
End pending_tracked_repos.

(** ** Running a handler *)

(** Unfolds the monad and its primitive actions, down to worlds. *)
Ltac run_handler :=
  cbv [Settings.run mbind mret Settings.M_bind Settings.M_ret
       Settings.emit Settings.setState Settings.toast
       Settings.dispatchWorkspaceUpdated Settings.mutateTrackedRepos
       Settings.router_push Settings.console_error
       Settings.saveWorkspace Settings.deleteTrackedRepos Settings.deleteWorkspace
       Settings.await Settings.await_Promise_all
       Settings.setIsDeleteModalOpen Settings.setWorkspaceName
       Settings.setTrackedReposModalOpen Settings.setTrackedRepos
       Settings.setTrackedReposPendingDeletion
       Settings.state Settings.effects fst snd app].

(** ** Submitting the form *)

Section update_workspace.
Import Settings.
Variables (env : Env) (workspace : Workspace) (form : FormData) (s : State).

(** The two payloads, and what the backend answers to them. *)
Let save_args : SaveWorkspaceArgs :=
  {| save_workspaceId := id workspace;
     save_name := form_name form;
     save_description := form_description form;
     save_sessionToken := sessionToken env;
     save_repos := map (λ repo, {| full_name := repo |}) (JSMap.keys (trackedRepos s)) |}.

Let delete_args : DeleteTrackedReposArgs :=
  {| deleteRepos_workspaceId := id workspace;
     deleteRepos_sessionToken := sessionToken env;
     deleteRepos_repos :=
       map (λ repo, {| full_name := repo |})
           (JSSet.elements (trackedReposPendingDeletion s)) |}.

Let update : ApiResult Workspace := saveWorkspace_answer env save_args.
Let deletes : ApiResult unit := deleteTrackedRepos_answer env delete_args.

(** The world after the handler has run. *)
Let after : World := (run (updateWorkspace env workspace form) s).2.

Lemma Array_from_Map_keys {V B} (m : JSMap.t V) (f : string → B) :
  Array_from_Map m f = map f (JSMap.keys m).
Proof.
  unfold Array_from_Map, JSMap.keys, JSMap.entries.
  by rewrite <- list_fmap_compose.
Qed.

(** The whole run, by cases on the two answers. *)
Lemma updateWorkspace_run :
  after =
    let requests :=
      [PreventDefault;
       RequestStarted (SaveWorkspace save_args);
       RequestSettled (SaveWorkspace save_args) (error update);
       RequestStarted (DeleteTrackedRepos delete_args);
       RequestSettled (DeleteTrackedRepos delete_args) (error deletes)] in
    if truthy (error update) || truthy (error deletes) then
      {| state := s; effects := requests ++ [Toast update_failed_toast] |}
    else
      {| state :=
           {| isDeleteModalOpen := isDeleteModalOpen s;
              workspaceName := form_name form;
              trackedReposModalOpen := trackedReposModalOpen s;
              trackedRepos := JSMap.empty;
              trackedReposPendingDeletion := JSSet.empty |};
         effects :=
           requests ++ [WorkspaceUpdatedEvent (data update); MutateTrackedRepos;
                        Toast update_succeeded_toast] |}.
Proof.
  subst after update deletes save_args delete_args.
  unfold run, updateWorkspace. rewrite Array_from_Map_keys.
  unfold Array_from_Set. run_handler.
  destruct (truthy (error _) || truthy (error _)); [by destruct s|done].
Qed.

Lemma truthy_true {A} (o : option A) : truthy o = true ↔ is_Some o.
Proof. destruct o; simpl; split; done. Qed.

Lemma truthy_false {A} (o : option A) : truthy o = false ↔ o = None.
Proof. by destruct o. Qed.

Lemma either_error :
  truthy (error update) || truthy (error deletes) = true
  ↔ is_Some (error update) ∨ is_Some (error deletes).
Proof. by rewrite orb_true_iff, !truthy_true. Qed.

Lemma neither_error :
  truthy (error update) || truthy (error deletes) = false
  ↔ error update = None ∧ error deletes = None.
Proof. by rewrite orb_false_iff, !truthy_false. Qed.

(** The overlap test tells the two apart: requests made as the
    specification words them do overlap. *)
Lemma spec_parallel_requests_overlap (a : SaveWorkspaceArgs) (d : DeleteTrackedReposArgs) :
  effects (spec_parallel_requests env a d {| state := s; effects := [] |}).2
  = [RequestStarted (SaveWorkspace a);
     RequestStarted (DeleteTrackedRepos d);
     RequestSettled (SaveWorkspace a) (error (saveWorkspace_answer env a));
     RequestSettled (DeleteTrackedRepos d) (error (deleteTrackedRepos_answer env d))]
  ∧ delete_started_before_save_settled
      (effects (spec_parallel_requests env a d {| state := s; effects := [] |}).2) = true.
Proof. by split. Qed.

(** C2, as the code has it: the two requests are made one after the other.
    The handler awaits the answer to [saveWorkspace] before it calls
    [deleteTrackedRepos], so the deletion is started only after the saving
    has settled and the two are never in flight together; what
    [Promise.all] is then given are the two answers themselves. *)
Theorem updateWorkspace_requests_in_sequence :
  take 5 (effects (run (updateWorkspace env workspace form) s).2)
  = [PreventDefault;
     RequestStarted (SaveWorkspace save_args);
     RequestSettled (SaveWorkspace save_args) (error update);
     RequestStarted (DeleteTrackedRepos delete_args);
     RequestSettled (DeleteTrackedRepos delete_args) (error deletes)]
  ∧ delete_started_before_save_settled
      (effects (run (updateWorkspace env workspace form) s).2) = false.
Proof.
  fold after. rewrite updateWorkspace_run. cbv zeta.
  destruct (truthy (error update) || truthy (error deletes)); by split.
Qed.

(** C3: once both requests have settled, exactly one toast is shown: the
    danger toast "Workspace update failed" if and only if one of the two
    answers carries an error, and the success toast "Workspace updated
    successfully" otherwise. *)
Theorem updateWorkspace_one_toast :
  length (toasts (effects (run (updateWorkspace env workspace form) s).2)) = 1%nat
  ∧ (toasts (effects (run (updateWorkspace env workspace form) s).2)
       = [{| toast_description := "Workspace update failed"; variant := danger |}]
     ↔ is_Some (error update) ∨ is_Some (error deletes))
  ∧ (toasts (effects (run (updateWorkspace env workspace form) s).2)
       = [{| toast_description := "Workspace updated successfully"; variant := success |}]
     ↔ ¬ (is_Some (error update) ∨ is_Some (error deletes))).
Proof.
  fold after. rewrite updateWorkspace_run, <- either_error. cbv zeta.
  destruct (truthy (error update) || truthy (error deletes)); simpl.
  - split; [done|]. split; split; try done.
  - split; [done|]. split; split; try done.
Qed.

(** C4: when neither request erred, the handler sets [workspaceName] to the
    submitted name and empties both [trackedRepos] and
    [trackedReposPendingDeletion] (the two modal flags stay); when one of
    them erred, the whole state is left as it was. *)
Theorem updateWorkspace_state :
  (error update = None ∧ error deletes = None →
     state (run (updateWorkspace env workspace form) s).2
     = {| isDeleteModalOpen := isDeleteModalOpen s;
          workspaceName := form_name form;
          trackedReposModalOpen := trackedReposModalOpen s;
          trackedRepos := JSMap.empty;
          trackedReposPendingDeletion := JSSet.empty |})
  ∧ (is_Some (error update) ∨ is_Some (error deletes) →
     state (run (updateWorkspace env workspace form) s).2 = s).
Proof.
  fold after. rewrite updateWorkspace_run. cbv zeta. split.
  - intros H. apply neither_error in H. by rewrite H.
  - intros H. apply either_error in H. by rewrite H.
Qed.

(** C6: the payloads are the local diff. [saveWorkspace] is given the keys
    of [trackedRepos], and [deleteTrackedRepos] the elements of
    [trackedReposPendingDeletion], each wrapped as [{ full_name }], in
    their order; these are the only two requests. *)
Theorem updateWorkspace_payloads :
  requests (effects (run (updateWorkspace env workspace form) s).2)
  = [SaveWorkspace
       {| save_workspaceId := id workspace;
          save_name := form_name form;
          save_description := form_description form;
          save_sessionToken := sessionToken env;
          save_repos :=
            map (λ repo, {| full_name := repo |}) (JSMap.keys (trackedRepos s)) |};
     DeleteTrackedRepos
       {| deleteRepos_workspaceId := id workspace;
          deleteRepos_sessionToken := sessionToken env;
          deleteRepos_repos :=
            map (λ repo, {| full_name := repo |})
                (JSSet.elements (trackedReposPendingDeletion s)) |}].
Proof.
  fold after. rewrite updateWorkspace_run. cbv zeta.
  by destruct (truthy (error update) || truthy (error deletes)).
Qed.
End update_workspace.

(** A submit that succeeds and one whose deletion fails, run on [state1]. *)
Example updateWorkspace_succeeds :
  (Settings.run (Settings.updateWorkspace Settings.env_ok Settings.workspace1 Settings.form1)
       Settings.state1).2
  = Settings.Build_World
      (Settings.Build_State false "New name" false [] [])
      [Settings.PreventDefault;
       Settings.RequestStarted (Settings.SaveWorkspace
         (Settings.Build_SaveWorkspaceArgs "w1" "New name" "A workspace" (Some "token")
            [Settings.Build_Repo "e/f"; Settings.Build_Repo "a/b"]));
       Settings.RequestSettled (Settings.SaveWorkspace
         (Settings.Build_SaveWorkspaceArgs "w1" "New name" "A workspace" (Some "token")
            [Settings.Build_Repo "e/f"; Settings.Build_Repo "a/b"])) None;
       Settings.RequestStarted (Settings.DeleteTrackedRepos
         (Settings.Build_DeleteTrackedReposArgs "w1" (Some "token") [Settings.Build_Repo "c/d"]));
       Settings.RequestSettled (Settings.DeleteTrackedRepos
         (Settings.Build_DeleteTrackedReposArgs "w1" (Some "token") [Settings.Build_Repo "c/d"])) None;
       Settings.WorkspaceUpdatedEvent
         (Some (Settings.Build_Workspace "w1" "New name" "A workspace"));
       Settings.MutateTrackedRepos;
       Settings.Toast Settings.update_succeeded_toast].
Proof. reflexivity. Qed.

Example updateWorkspace_fails :
  Settings.state
    (Settings.run (Settings.updateWorkspace Settings.env_delete_fails Settings.workspace1 Settings.form1)
         Settings.state1).2
  = Settings.state1
  ∧ Settings.toasts (Settings.effects
      (Settings.run (Settings.updateWorkspace Settings.env_delete_fails Settings.workspace1 Settings.form1)
           Settings.state1).2)
    = [Settings.update_failed_toast].
Proof. split; reflexivity. Qed.

(** ** Deleting the workspace *)

Section delete_workspace.
Import Settings.
Variables (env : Env) (workspace : Workspace) (s : State).

(** What the backend answers to the deletion. *)
Let answer : ApiResult unit :=
  deleteWorkspace_answer env
    {| delete_workspaceId := id workspace; delete_sessionToken := sessionToken env |}.

(** C7: [onDelete] branches on the answer of [deleteWorkspace]. With an
    error it shows the danger toast "Workspace delete failed" and does not
    navigate; without one it shows the success toast "Workspace deleted
    successfully" and navigates to "/workspaces/new". *)
Theorem onDelete_toast_and_navigation :
  (is_Some (error answer) →
     toasts (effects (run (onDelete env workspace) s).2)
       = [{| toast_description := "Workspace delete failed"; variant := danger |}]
     ∧ navigations (effects (run (onDelete env workspace) s).2) = [])
  ∧ (error answer = None →
     toasts (effects (run (onDelete env workspace) s).2)
       = [{| toast_description := "Workspace deleted successfully"; variant := success |}]
     ∧ navigations (effects (run (onDelete env workspace) s).2) = ["/workspaces/new"]).
Proof.
  subst answer. unfold run, onDelete. run_handler.
  destruct (error _) as [e|]; simpl; split; done.
Qed.

(** The handler leaves the component state alone. *)
Lemma onDelete_state : state (run (onDelete env workspace) s).2 = s.
Proof.
  unfold run, onDelete. run_handler.
  destruct (truthy (error _)); by destruct s.
Qed.
End delete_workspace.

Example onDelete_fails :
  Settings.effects
    (Settings.run (Settings.onDelete Settings.env_delete_fails Settings.workspace1)
                  Settings.state1).2
  = [Settings.RequestStarted (Settings.DeleteWorkspace
       (Settings.Build_DeleteWorkspaceArgs "w1" (Some "token")));
     Settings.RequestSettled (Settings.DeleteWorkspace
       (Settings.Build_DeleteWorkspaceArgs "w1" (Some "token")))
       (Some (Settings.Build_ApiError 500 "failed"));
     Settings.Toast (Settings.Build_ToastProps "Workspace delete failed" Settings.danger)].
Proof. reflexivity. Qed.

Example onDelete_succeeds :
  Settings.effects
    (Settings.run (Settings.onDelete Settings.env_ok Settings.workspace1) Settings.state1).2
  = [Settings.RequestStarted (Settings.DeleteWorkspace
       (Settings.Build_DeleteWorkspaceArgs "w1" (Some "token")));
     Settings.RequestSettled (Settings.DeleteWorkspace
       (Settings.Build_DeleteWorkspaceArgs "w1" (Some "token"))) None;
     Settings.Toast (Settings.Build_ToastProps "Workspace deleted successfully" Settings.success);
     Settings.RouterPush "/workspaces/new"].
Proof. reflexivity. Qed.

(** ** Loading the page on the server *)

Section server_side_props.
Import Settings.
Variable context : ServerContext.

(** What [fetchApiData] answers for the workspace of this request. *)
Let answer : ApiResult Workspace :=
  fetchApiData context
    ("workspaces/" +:+ interpolate (params_workspaceId context))
    (match getSession context with
     | Some session => access_token session
     | None => ""
     end).

(** C10: [getServerSideProps] returns [{ notFound: true }] exactly when
    the fetch failed with status 404; on every other failed fetch it throws;
    and on a successful fetch it returns the fetched workspace as the props
    of the page. *)
Theorem getServerSideProps_cases :
  (getServerSideProps context = Return NotFound
   ↔ ∃ e, error answer = Some e ∧ status e = 404)
  ∧ (∀ e, error answer = Some e → status e ≠ 404 →
       getServerSideProps context
       = Throw ("Error loading workspaces page with ID "
                +:+ interpolate (params_workspaceId context)))
  ∧ (error answer = None →
       getServerSideProps context = Return (PageProps (data answer))).
Proof.
  subst answer. unfold getServerSideProps. cbv zeta.
  destruct (error _) as [e|].
  - case_bool_decide as Hstatus.
    + split; [|split].
      * split; [intros _; by exists e | done].
      * intros e' [= <-] Hne. done.
      * done.
    + split; [|split].
      * split; [done|]. intros [e' [[= <-] Hs]]. done.
      * by intros e' [= <-] _.
      * done.
  - split; [|split]; [|done|done]. split; [done|]. by intros [e [? _]].
Qed.
End server_side_props.

Example getServerSideProps_404 :
  Settings.getServerSideProps
    (Settings.Build_ServerContext (Some "w1") None (λ _ _, Settings.failed 404))
  = Settings.Return Settings.NotFound.
Proof. reflexivity. Qed.

Example getServerSideProps_500 :
  Settings.getServerSideProps
    (Settings.Build_ServerContext (Some "w1") None (λ _ _, Settings.failed 500))
  = Settings.Throw "Error loading workspaces page with ID w1".
Proof. reflexivity. Qed.

Example getServerSideProps_found :
  Settings.getServerSideProps
    (Settings.Build_ServerContext (Some "w1") (Some (Settings.Build_Session "token"))
       (λ path bearerToken,
          if bool_decide (path = "workspaces/w1" ∧ bearerToken = "token")
          then Settings.ok (Some Settings.workspace1)
          else Settings.failed 401))
  = Settings.Return (Settings.PageProps (Some Settings.workspace1)).
Proof. reflexivity. Qed.

(** ** The pull-request hook *)

Section use_pull_requests.
Import PullRequests.
Context {DbRepoPR : Type}.
Implicit Types (st : State) (useSWR : string → SWRResponse DbRepoPR).

Lemma truthy_number_true (n : Z) : n ≠ 0 → truthy_number n = true.
Proof. unfold truthy_number. intros Hn. by apply negb_true_iff, Z.eqb_neq. Qed.

(** The endpoint of a state whose page and limit are not zero. *)
Lemma endpointString_nonzero st :
  page st ≠ 0 → limit st ≠ 0 →
  endpointString st
  = "prs/list?page=" +:+ number_to_string (page st)
    +:+ "&limit=" +:+ number_to_string (limit st) +:+ "&stars=1000".
Proof.
  intros Hpage Hlimit. unfold endpointString.
  rewrite (truthy_number_true _ Hpage), (truthy_number_true _ Hlimit).
  generalize (number_to_string (page st)) (number_to_string (limit st)).
  intros p l. reflexivity.
Qed.

(** C5: the hook paginates through the query string. Once [setPage] has
    set a page [p >= 1] and [setLimit] a limit [l >= 1], in either order,
    the key given to the cached fetcher is
    "prs/list?page=" + p + "&limit=" + l + "&stars=1000"; the page starts
    at 1, the limit at 500, and the stars parameter is always 1000. *)
Theorem usePullRequests_endpoint (p l : Z) st useSWR :
  1 ≤ p → 1 ≤ l →
  let expected :=
    "prs/list?page=" +:+ number_to_string p
    +:+ "&limit=" +:+ number_to_string l +:+ "&stars=1000" in
  let st1 := setLimit (NewValue l) (setPage (NewValue p) st) in
  let st2 := setPage (NewValue p) (setLimit (NewValue l) st) in
  endpointString st1 = expected
  ∧ endpointString st2 = expected
  ∧ usePullRequests useSWR st1 = usePullRequests (λ _, useSWR expected) st1
  ∧ page initialState = 1 ∧ limit initialState = 500 ∧ stars = 1000
  ∧ endpointString initialState = "prs/list?page=1&limit=500&stars=1000".
Proof.
  intros Hp Hl expected st1 st2.
  assert (endpointString st1 = expected) as H1.
  { apply endpointString_nonzero; simpl; lia. }
  assert (endpointString st2 = expected) as H2.
  { apply endpointString_nonzero; simpl; lia. }
  repeat split; try done.
  unfold usePullRequests. by rewrite H1.
Qed.

(** C9: the hook never hands out an absent answer. Without data it returns
    the empty list and the all-zero meta; [isLoading] holds exactly when
    there is neither an error nor data, and [isError] exactly when there is
    an error. *)
Theorem usePullRequests_defaults st useSWR :
  let answer := useSWR (endpointString st) in
  let hook := usePullRequests useSWR st in
  (swr_data answer = None →
     data hook = []
     ∧ meta hook = {| itemCount := 0; meta_limit := 0; meta_page := 0;
                      hasNextPage := false; hasPreviousPage := false;
                      pageCount := 0 |})
  ∧ (isLoading hook = true ↔ swr_error answer = None ∧ swr_data answer = None)
  ∧ (isError hook = true ↔ is_Some (swr_error answer)).
Proof.
  intros answer hook. subst hook. unfold usePullRequests. fold answer. simpl.
  destruct (swr_data answer) as [d|], (swr_error answer) as [e|]; simpl;
    repeat split; try done.
  all: by intros [? ?].
Qed.

(** With data, the hook hands out the answer's rows and meta. *)
Lemma usePullRequests_data st useSWR response :
  swr_data (useSWR (endpointString st)) = Some response →
  data (usePullRequests useSWR st) = response_data response
  ∧ meta (usePullRequests useSWR st) = response_meta response
  ∧ isLoading (usePullRequests useSWR st) = false.
Proof.
  intros H. unfold usePullRequests. simpl. rewrite H. simpl.
  by rewrite andb_false_r.
Qed.
End use_pull_requests.

(** The three states of the cache: nothing yet, an error, an answer. *)
Example usePullRequests_loading :
  PullRequests.usePullRequests (DbRepoPR:=string)
    (λ _, PullRequests.Build_SWRResponse None None) PullRequests.initialState
  = PullRequests.Build_Hook [] (PullRequests.Build_Meta 0 0 0 false false 0) true false 1.
Proof. reflexivity. Qed.

Example usePullRequests_error :
  PullRequests.usePullRequests (DbRepoPR:=string)
    (λ _, PullRequests.Build_SWRResponse None (Some (PullRequests.Build_Error "offline")))
    PullRequests.initialState
  = PullRequests.Build_Hook [] (PullRequests.Build_Meta 0 0 0 false false 0) false true 1.
Proof. reflexivity. Qed.

Example usePullRequests_answer :
  PullRequests.usePullRequests
    (λ key,
       if bool_decide (key = "prs/list?page=1&limit=500&stars=1000")
       then PullRequests.Build_SWRResponse
              (Some (PullRequests.Build_PaginatedResponse ["pr 1"; "pr 2"]
                       (PullRequests.Build_Meta 2 500 1 false false 1)))
              None
       else PullRequests.Build_SWRResponse None None)
    PullRequests.initialState
  = PullRequests.Build_Hook ["pr 1"; "pr 2"] (PullRequests.Build_Meta 2 500 1 false false 1)
      false false 1.
Proof. reflexivity. Qed.

(** Page 2 with 50 rows a page. *)
Lemma usePullRequests_endpoint_witness :
  1 ≤ 2 ∧ 1 ≤ 50
  ∧ PullRequests.endpointString
      (PullRequests.setLimit (PullRequests.NewValue 50)
         (PullRequests.setPage (PullRequests.NewValue 2) PullRequests.initialState))
    = "prs/list?page=2&limit=50&stars=1000".
Proof.
  split; [lia|]. split; [lia|].
  apply (usePullRequests_endpoint (DbRepoPR:=unit) 2 50 PullRequests.initialState
           (λ _, PullRequests.Build_SWRResponse None None)); lia.
Defined.

(** * Further properties *)

(** ** More on maps and sets *)

Section more_map_facts.
Context {V : Type}.
Implicit Types (m : JSMap.t V) (k : string) (v : V).

Lemma filter_all {A} (P : A → Prop) `{!∀ x, Decision (P x)} (l : list A) :
  (∀ x, x ∈ l → P x) → filter P l = l.
Proof.
  induction l as [|x l IH]; intros Hall; [done|].
  rewrite filter_cons_True by (apply Hall; by left).
  rewrite IH; [done|]. intros y Hy. apply Hall. by right.
Qed.

Lemma filter_iff_on {A} (P1 P2 : A → Prop)
    `{!∀ x, Decision (P1 x), !∀ x, Decision (P2 x)} (l : list A) :
  (∀ x, x ∈ l → P1 x ↔ P2 x) → filter P1 l = filter P2 l.
Proof.
  induction l as [|x l IH]; intros Hall; [done|].
  assert (filter P1 l = filter P2 l) as Hl.
  { apply IH. intros y Hy. apply Hall. by right. }
  assert (P1 x ↔ P2 x) as Hx by (apply Hall; by left).
  destruct (decide (P1 x)) as [Hx1|Hx1].
  - rewrite !filter_cons_True by tauto. by rewrite Hl.
  - rewrite !filter_cons_False by tauto. done.
Qed.

(** The loop is a filter: it keeps, in their order and with their values,
    the entries it does not visit or whose key [p] rejects. *)
Lemma forEach_delete_if_filter p (todo : list (string * V)) m :
  JSMap.forEach_delete_if p todo m
  = filter (λ e, ¬ (e.1 ∈ todo.*1 ∧ p e.1 = true)) (JSMap.entries m).
Proof.
  unfold JSMap.entries. revert m.
  induction todo as [|[k0 v0] todo IH]; intros m; simpl.
  - symmetry. apply filter_all. intros e _. rewrite elem_of_nil. tauto.
  - rewrite IH. destruct (p k0) eqn:Hp.
    + unfold JSMap.delete, JSMap.t. rewrite list_filter_filter.
      apply list_filter_iff. intros [k v]. simpl. rewrite elem_of_cons.
      split.
      * intros [Hrest Hne] [[->|Hin] Hpk]; tauto.
      * intros Hnot. split; [tauto|]. intros ->. tauto.
    + apply list_filter_iff. intros [k v]. simpl. rewrite elem_of_cons.
      split.
      * intros Hrest [[->|Hin] Hpk]; [congruence|tauto].
      * tauto.
Qed.

Lemma forEach_delete_if_all_filter p m :
  JSMap.forEach_delete_if p (JSMap.entries m) m
  = filter (λ e, p e.1 = false) (JSMap.entries m).
Proof.
  rewrite forEach_delete_if_filter. unfold JSMap.entries.
  apply filter_iff_on. intros [k v] Hin. simpl.
  assert (k ∈ m.*1) by (apply list_elem_of_fmap; by exists (k, v)).
  destruct (p k); split; try done.
  - intros Hnot. destruct Hnot. done.
  - intros _ [_ ?]. done.
Qed.

(** A fresh key goes to the end. *)
Lemma set_fresh k v m : k ∉ JSMap.keys m → JSMap.set k v m = m ++ [(k, v)].
Proof.
  unfold JSMap.keys. induction m as [|[k0 v0] m IH]; simpl; intros Hk; [done|].
  apply not_elem_of_cons in Hk as [Hne Hk]. rewrite decide_False by done.
  by rewrite IH.
Qed.

(** Entries with distinct keys make the map that lists them as they are. *)
Lemma from_entries_NoDup (es : list (string * V)) :
  NoDup es.*1 → JSMap.from_entries es = es.
Proof.
  unfold JSMap.from_entries.
  enough (∀ acc : JSMap.t V, NoDup (acc.*1 ++ es.*1) →
            foldl (λ m e, JSMap.set e.1 e.2 m) acc es = acc ++ es) as H.
  { intros Hnd. apply (H JSMap.empty). done. }
  induction es as [|[k v] es IH]; intros acc Hnd; simpl.
  - by rewrite app_nil_r.
  - rewrite set_fresh.
    + rewrite IH; [by rewrite <- app_assoc|].
      rewrite fmap_app. simpl. by rewrite <- app_assoc.
    + apply NoDup_app in Hnd as (_ & Hdisj & _). intros Hin.
      apply (Hdisj k Hin). simpl. apply elem_of_cons. by left.
Qed.

(** Copying a map gives the map. *)
Lemma from_entries_entries m :
  NoDup (JSMap.keys m) → JSMap.from_entries (JSMap.entries m) = m.
Proof. apply from_entries_NoDup. Qed.
End more_map_facts.

Import Interaction.

Lemma all_true_set k (m : JSMap.t bool) : all_true m → all_true (JSMap.set k true m).
Proof.
  unfold all_true. induction m as [|[k0 v0] m IH]; simpl; intros Hm.
  - by apply Forall_singleton.
  - apply Forall_cons in Hm as [Hv Hm]. case_decide.
    + by apply Forall_cons.
    + apply Forall_cons. split; [done|]. by apply IH.
Qed.

Lemma all_true_delete k (m : JSMap.t bool) : all_true m → all_true (JSMap.delete k m).
Proof.
  unfold all_true, JSMap.delete, JSMap.t. rewrite !Forall_forall.
  intros Hm e He. apply list_elem_of_filter in He as [_ He]. by apply Hm.
Qed.

Lemma all_true_foldl_set (es : list (string * bool)) (m : JSMap.t bool) :
  all_true m → Forall (λ e, e.2 = true) es →
  all_true (foldl (λ m e, JSMap.set e.1 e.2 m) m es).
Proof.
  revert m. induction es as [|[k v] es IH]; intros m Hm Hes; simpl; [done|].
  apply Forall_cons in Hes as [Hv Hes]. simpl in Hv. subst v.
  apply IH; [|done]. by apply all_true_set.
Qed.

Lemma all_true_from_entries (es : list (string * bool)) :
  Forall (λ e, e.2 = true) es → all_true (JSMap.from_entries es).
Proof. apply all_true_foldl_set. by apply Forall_nil. Qed.

(** Sets: [add] and [from_list]. *)
Lemma elements_add x y (s : JSSet.t) :
  x ∈ JSSet.elements (JSSet.add y s) ↔ x = y ∨ x ∈ JSSet.elements s.
Proof.
  unfold JSSet.add, JSSet.elements, JSSet.has. case_bool_decide as Hy.
  - split; [tauto|]. by intros [->|?].
  - rewrite elem_of_app, list_elem_of_singleton. tauto.
Qed.

Lemma NoDup_add y (s : JSSet.t) :
  NoDup (JSSet.elements s) → NoDup (JSSet.elements (JSSet.add y s)).
Proof.
  unfold JSSet.add, JSSet.elements, JSSet.has. intros Hs.
  case_bool_decide as Hy; [done|].
  apply NoDup_app. split; [done|]. split; [|apply NoDup_singleton].
  intros x Hx ->%list_elem_of_singleton. done.
Qed.

Lemma from_list_foldl x (xs : list string) (s : JSSet.t) :
  (x ∈ JSSet.elements (foldl (λ s x, JSSet.add x s) s xs)
   ↔ x ∈ JSSet.elements s ∨ x ∈ xs)
  ∧ (NoDup (JSSet.elements s) →
     NoDup (JSSet.elements (foldl (λ s x, JSSet.add x s) s xs))).
Proof.
  revert s. induction xs as [|y xs IH]; intros s; simpl.
  - rewrite elem_of_nil. tauto.
  - destruct (IH (JSSet.add y s)) as [Hin Hnd]. split.
    + rewrite Hin, elements_add, elem_of_cons. tauto.
    + intros Hs. by apply Hnd, NoDup_add.
Qed.

Lemma elements_from_list x (xs : list string) :
  x ∈ JSSet.elements (JSSet.from_list xs) ↔ x ∈ xs.
Proof.
  unfold JSSet.from_list. rewrite (proj1 (from_list_foldl x xs JSSet.empty)).
  unfold JSSet.elements, JSSet.empty. rewrite elem_of_nil. tauto.
Qed.

Lemma NoDup_from_list (xs : list string) :
  NoDup (JSSet.elements (JSSet.from_list xs)).
Proof.
  unfold JSSet.from_list. apply (from_list_foldl "" xs JSSet.empty).
  apply NoDup_nil_2.
Qed.

(** ** The table, exactly *)

Section pending_exact.
Import Settings.
Implicit Types (response : option WorkspaceRepositories) (s : State).

(** The derived map is the merged map without the entries pending
    deletion, in the merged map's order. *)
Lemma pendingTrackedRepos_filter response s :
  pendingTrackedRepos response s
  = filter (λ e, JSSet.has e.1 (trackedReposPendingDeletion s) = false)
      (JSMap.from_entries
         (map (λ repo, (repo, true)) (initialTrackedRepos response)
          ++ JSMap.entries (trackedRepos s))).
Proof.
  unfold pendingTrackedRepos. cbv zeta.
  by rewrite (forEach_delete_if_all_filter
    (λ repo, JSSet.has repo (trackedReposPendingDeletion s))).
Qed.

(** X1: when the initial repos are distinct and the newly added ones are
    new, the table lists the initial repos in the order the backend gave
    them, then the added ones in the order they were added, each with the
    value it had, and leaves out those pending deletion. *)
Theorem pendingTrackedRepos_order response s :
  NoDup (initialTrackedRepos response ++ JSMap.keys (trackedRepos s)) →
  pendingTrackedRepos response s
  = filter (λ e, e.1 ∉ JSSet.elements (trackedReposPendingDeletion s))
      (map (λ repo, (repo, true)) (initialTrackedRepos response)
       ++ JSMap.entries (trackedRepos s)).
Proof.
  intros Hnd. rewrite pendingTrackedRepos_filter, from_entries_NoDup.
  - apply list_filter_iff. intros e. apply set_has_false.
  - rewrite fmap_app, <- list_fmap_compose.
    change (fst ∘ (λ repo0 : string, (repo0, true))) with (@Datatypes.id string).
    by rewrite list_fmap_id.
Qed.

Lemma pendingTrackedRepos_order_witness :
  NoDup (initialTrackedRepos repositories1
         ++ JSMap.keys [("e/f", true); ("g/h", true)])
  ∧ pendingTrackedRepos repositories1
      {| isDeleteModalOpen := false; workspaceName := "Old name";
         trackedReposModalOpen := false;
         trackedRepos := [("e/f", true); ("g/h", true)];
         trackedReposPendingDeletion := ["c/d"; "e/f"] |}
    = [("a/b", true); ("g/h", true)].
Proof.
  assert (NoDup (initialTrackedRepos repositories1
                 ++ JSMap.keys [("e/f", true); ("g/h", true)])) as Hnd.
  { apply (bool_decide_unpack _). vm_compute. exact I. }
  split; [exact Hnd|].
  rewrite (pendingTrackedRepos_order repositories1
    {| isDeleteModalOpen := false; workspaceName := "Old name";
       trackedReposModalOpen := false;
       trackedRepos := [("e/f", true); ("g/h", true)];
       trackedReposPendingDeletion := ["c/d"; "e/f"] |} Hnd).
  reflexivity.
Defined.

(** A repo that is in the table has the value [true] there, as soon as
    [trackedRepos] holds no other value. *)
Lemma pendingTrackedRepos_all_true response s :
  Interaction.all_true (trackedRepos s) →
  Interaction.all_true (pendingTrackedRepos response s).
Proof.
  intros Htracked. rewrite pendingTrackedRepos_filter.
  unfold Interaction.all_true, JSMap.entries, JSMap.t.
  apply Forall_forall. intros e He.
  apply list_elem_of_filter in He as [_ He]. revert e He. apply Forall_forall.
  apply all_true_from_entries, Forall_app. split; [|done].
  apply Forall_forall. intros e He. apply list_elem_of_fmap in He as [r [-> _]]. done.
Qed.

End pending_exact.

(** ** Every action, step by step *)

Section steps.
Import Interaction.
Import Settings.
Variable workspace : Workspace.
Implicit Types (s : State) (a : Action) (repo : string).

(** The next state, action by action. *)
Lemma step_Submit env form s :
  step workspace s (Submit env form)
  = if truthy (error (saveWorkspace_answer env
         {| save_workspaceId := id workspace;
            save_name := form_name form;
            save_description := form_description form;
            save_sessionToken := sessionToken env;
            save_repos :=
              map (λ repo, {| full_name := repo |}) (JSMap.keys (trackedRepos s)) |}))
       || truthy (error (deleteTrackedRepos_answer env
         {| deleteRepos_workspaceId := id workspace;
            deleteRepos_sessionToken := sessionToken env;
            deleteRepos_repos :=
              map (λ repo, {| full_name := repo |})
                  (JSSet.elements (trackedReposPendingDeletion s)) |}))
    then s
    else {| isDeleteModalOpen := isDeleteModalOpen s;
            workspaceName := form_name form;
            trackedReposModalOpen := trackedReposModalOpen s;
            trackedRepos := JSMap.empty;
            trackedReposPendingDeletion := JSSet.empty |}.
Proof.
  unfold step, handler. rewrite updateWorkspace_run. cbv zeta.
  by destruct (truthy _ || truthy _).
Qed.

Lemma step_RemoveTrackedRepo repo s :
  repo ≠ "" →
  step workspace s (RemoveTrackedRepo (Some repo))
  = {| isDeleteModalOpen := isDeleteModalOpen s;
       workspaceName := workspaceName s;
       trackedReposModalOpen := trackedReposModalOpen s;
       trackedRepos :=
         JSMap.delete repo (JSMap.from_entries (JSMap.entries (trackedRepos s)));
       trackedReposPendingDeletion :=
         JSSet.from_list (JSSet.elements (trackedReposPendingDeletion s) ++ [repo]) |}.
Proof.
  intros Hrepo. unfold step, handler, run, onRemoveTrackedRepo.
  by rewrite bool_decide_eq_false_2.
Qed.

Lemma step_RemoveTrackedRepo_nothing dataset_repo s :
  dataset_repo = None ∨ dataset_repo = Some "" →
  step workspace s (RemoveTrackedRepo dataset_repo) = s.
Proof. intros [->| ->]; by destruct s. Qed.

Lemma step_AddToTrackingList repos s :
  step workspace s (AddToTrackingList repos)
  = {| isDeleteModalOpen := isDeleteModalOpen s;
       workspaceName := workspaceName s;
       trackedReposModalOpen := false;
       trackedRepos := addToTrackingList repos (trackedRepos s);
       trackedReposPendingDeletion := trackedReposPendingDeletion s |}.
Proof. reflexivity. Qed.

Lemma step_Delete env s : step workspace s (Delete env) = s.
Proof. apply onDelete_state. Qed.

(** The actions that only flip a modal flag. *)
Lemma step_flags a s :
  a = AddRepos ∨ a = CloseTrackedReposModal ∨ a = CancelTrackedReposModal
  ∨ a = ClickDeleteWorkspace ∨ a = CloseDeleteModal →
  workspaceName (step workspace s a) = workspaceName s
  ∧ trackedRepos (step workspace s a) = trackedRepos s
  ∧ trackedReposPendingDeletion (step workspace s a) = trackedReposPendingDeletion s.
Proof. intros [->|[->|[->|[->| ->]]]]; done. Qed.

(** [addToTrackingList] keeps a map a map, with no value but [true]. *)
Lemma addToTrackingList_well_formed repos (m : JSMap.t bool) :
  all_true m →
  NoDup (JSMap.keys (addToTrackingList repos m))
  ∧ all_true (addToTrackingList repos m).
Proof.
  intros Hm. unfold addToTrackingList.
  assert (NoDup (JSMap.keys (JSMap.from_entries (JSMap.entries m)))
          ∧ all_true (JSMap.from_entries (JSMap.entries m))) as Hcopy.
  { split; [apply NoDup_keys_from_entries|by apply all_true_from_entries]. }
  revert Hcopy. generalize (JSMap.from_entries (JSMap.entries m)).
  unfold JSMap.entries. induction repos as [|[repo isSelected] repos IH];
    intros updates [Hnd Htrue]; simpl; [done|].
  apply IH. destruct isSelected.
  - split; [by apply NoDup_keys_set|by apply all_true_set].
  - split; [by apply NoDup_keys_delete|by apply all_true_delete].
Qed.

Lemma step_well_formed a s : well_formed s → well_formed (step workspace s a).
Proof.
  intros (Hkeys & Hset & Htrue). destruct a as [env form| |dataset_repo| |repos| | | |env].
  - rewrite step_Submit. destruct (truthy _ || truthy _); [done|].
    repeat split; simpl; apply NoDup_nil_2 || apply Forall_nil_2.
  - done.
  - destruct dataset_repo as [repo|]; [|done].
    destruct (decide (repo = "")) as [->|Hrepo]; [by destruct s|].
    rewrite step_RemoveTrackedRepo by done. repeat split; simpl.
    + apply NoDup_keys_delete, NoDup_keys_from_entries.
    + apply NoDup_from_list.
    + by apply all_true_delete, all_true_from_entries.
  - done.
  - rewrite step_AddToTrackingList. repeat split; simpl; [| done |];
      by apply addToTrackingList_well_formed.
  - done.
  - done.
  - done.
  - by rewrite step_Delete.
Qed.

Lemma steps_well_formed (actions : list Action) s :
  well_formed s → well_formed (steps workspace s actions).
Proof.
  unfold steps. revert s.
  induction actions as [|a actions IH]; intros s Hs; simpl; [done|].
  by apply IH, step_well_formed.
Qed.

Lemma initialState_well_formed : well_formed (initialState workspace).
Proof. repeat split; simpl; apply NoDup_nil_2 || apply Forall_nil_2. Qed.

(** X2: whatever the user does, from the first render on, [trackedRepos]
    holds no value but [true], and so does the table: every row is a
    selected repo, and no repo has two rows. *)
Theorem reachable_rows_selected response (actions : list Action) :
  all_true (trackedRepos (steps workspace (initialState workspace) actions))
  ∧ all_true (pendingTrackedRepos response (steps workspace (initialState workspace) actions))
  ∧ NoDup (JSMap.keys
      (pendingTrackedRepos response (steps workspace (initialState workspace) actions))).
Proof.
  destruct (steps_well_formed actions _ initialState_well_formed) as (_ & _ & Htrue).
  split; [done|]. split; [|apply pendingTrackedRepos_NoDup].
  by apply pendingTrackedRepos_all_true.
Qed.
End steps.

(** ** Removing and adding repos *)

Section remove_and_add.
Import Settings.
Import Interaction.
Variable workspace : Workspace.
Implicit Types (response : option WorkspaceRepositories) (s : State) (repo r : string).

Lemma has_ext {V W} r (m : JSMap.t V) (m' : JSMap.t W) :
  (r ∈ JSMap.keys m ↔ r ∈ JSMap.keys m') → JSMap.has r m = JSMap.has r m'.
Proof.
  intros H. unfold JSMap.has.
  destruct (decide (r ∈ JSMap.keys m')) as [Hin|Hout].
  - rewrite !bool_decide_eq_true_2; tauto.
  - rewrite !bool_decide_eq_false_2; tauto.
Qed.

(** After a removal the repo is no key of [trackedRepos] and is pending
    deletion. *)
Lemma onRemoveTrackedRepo_facts s repo :
  repo ≠ "" →
  (repo ∉ JSMap.keys (trackedRepos (state (run (onRemoveTrackedRepo (Some repo)) s).2)))
  ∧ repo ∈ JSSet.elements
             (trackedReposPendingDeletion
                (state (run (onRemoveTrackedRepo (Some repo)) s).2)).
Proof.
  intros Hrepo.
  change (state (run (onRemoveTrackedRepo (Some repo)) s).2)
    with (step workspace s (RemoveTrackedRepo (Some repo))).
  rewrite step_RemoveTrackedRepo by done. simpl. split.
  - rewrite keys_delete. tauto.
  - apply elements_from_list, elem_of_app. right. by apply list_elem_of_singleton.
Qed.

(** X3: removing a repo takes exactly its row out of the table. The repo
    leaves [trackedRepos], enters [trackedReposPendingDeletion] and is no
    longer in the table; every other repo is in the table after the removal
    if and only if it was before. *)
Theorem onRemoveTrackedRepo_removes_one_row response s repo :
  repo ≠ "" →
  let s' := state (run (onRemoveTrackedRepo (Some repo)) s).2 in
  JSMap.has repo (trackedRepos s') = false
  ∧ JSSet.has repo (trackedReposPendingDeletion s') = true
  ∧ JSMap.has repo (pendingTrackedRepos response s') = false
  ∧ ∀ r, r ≠ repo →
      JSMap.has r (pendingTrackedRepos response s')
      = JSMap.has r (pendingTrackedRepos response s).
Proof.
  intros Hrepo s'.
  assert (s' = step workspace s (RemoveTrackedRepo (Some repo))) as Hs' by done.
  rewrite step_RemoveTrackedRepo in Hs' by done. rewrite Hs'. simpl.
  assert (repo ∈ JSSet.elements (JSSet.from_list
            (JSSet.elements (trackedReposPendingDeletion s) ++ [repo]))) as Hpending.
  { apply elements_from_list, elem_of_app. right. by apply list_elem_of_singleton. }
  split; [|split; [|split]].
  - apply has_false. rewrite keys_delete. tauto.
  - by apply set_has_true.
  - apply has_false. rewrite pendingTrackedRepos_elem_of. simpl. tauto.
  - intros r Hr. apply has_ext. rewrite !pendingTrackedRepos_elem_of. simpl.
    rewrite keys_delete, keys_from_entries, elements_from_list, elem_of_app,
      list_elem_of_singleton.
    unfold JSSet.elements, JSMap.entries, JSMap.keys. tauto.
Qed.

(** X4: a removal with no repo name (the data attribute is missing or
    empty) changes nothing; all it does is log the error to the console. *)
Theorem onRemoveTrackedRepo_without_repo dataset_repo s :
  dataset_repo = None ∨ dataset_repo = Some "" →
  (run (onRemoveTrackedRepo dataset_repo) s).2
  = {| state := s;
       effects := [ConsoleError "The tracked repo to remove was not found"] |}.
Proof. intros [->| ->]; reflexivity. Qed.

(** The keys after the modal's selection has been merged in, for a
    selection that is a map. *)
Lemma addToTrackingList_foldl r (repos : JSMap.t bool) (updates : JSMap.t bool) :
  NoDup (JSMap.keys repos) →
  r ∈ JSMap.keys
        (foldl (λ updates e,
                  let '(repo, isSelected) := e in
                  if isSelected : bool then JSMap.set repo true updates
                  else JSMap.delete repo updates)
               updates (JSMap.entries repos))
  ↔ (r, true) ∈ repos ∨ ((r ∉ JSMap.keys repos) ∧ r ∈ JSMap.keys updates).
Proof.
  unfold JSMap.entries, JSMap.keys. revert updates.
  induction repos as [|[k b] repos IH]; intros updates Hnd; simpl.
  - rewrite !elem_of_nil. tauto.
  - apply NoDup_cons in Hnd as [Hk Hnd]. rewrite IH by done.
    assert ((r, true) ∈ repos → r ∈ repos.*1) as Hfst.
    { intros Hin. apply list_elem_of_fmap. by exists (r, true). }
    rewrite !elem_of_cons. destruct b.
    + pose proof (keys_set r k true updates) as Hset. unfold JSMap.keys in Hset.
      rewrite Hset. split.
      * intros [Hin|[Hout [->|Hin]]]; [tauto|by left; left|].
        destruct (decide (r = k)) as [->|Hne]; [by left; left|]. right. tauto.
      * intros [[[= -> ]|Hin]|[Hout Hin]]; [|tauto|].
        -- right. split; [done|]. by left.
        -- right. split; [tauto|]. by right.
    + pose proof (keys_delete r k updates) as Hdel.
      unfold JSMap.keys in Hdel. rewrite Hdel. split.
      * intros [Hin|[Hout [Hne Hin]]]; [tauto|]. right. tauto.
      * intros [[[= ]|Hin]|[Hout Hin]]; [tauto|]. right. tauto.
Qed.

(** X5: what the tracked repos modal does to [trackedRepos]. After
    [onAddToTrackingList], a repo is a key of [trackedRepos] if and only if
    the selection holds it as selected, or the selection does not mention
    it and it was a key before; the modal is closed, and nothing else
    changes. *)
Theorem onAddToTrackingList_keys (repos : JSMap.t bool) s r :
  NoDup (JSMap.keys repos) →
  let s' := state (run (onAddToTrackingList repos) s).2 in
  (JSMap.has r (trackedRepos s') = true
   ↔ (r, true) ∈ JSMap.entries repos
     ∨ (JSMap.has r repos = false ∧ JSMap.has r (trackedRepos s) = true))
  ∧ trackedReposModalOpen s' = false
  ∧ workspaceName s' = workspaceName s
  ∧ isDeleteModalOpen s' = isDeleteModalOpen s
  ∧ trackedReposPendingDeletion s' = trackedReposPendingDeletion s.
Proof.
  intros Hnd s'. subst s'. rewrite onAddToTrackingList_state. simpl.
  split; [|done]. unfold addToTrackingList.
  rewrite !has_true, has_false, addToTrackingList_foldl, keys_from_entries by done.
  done.
Qed.

(** X6: the modal cannot take an initially tracked repo out of the table.
    Whatever the selection, a repo the backend lists that is not pending
    deletion is still in the table after [onAddToTrackingList], also when
    the selection holds it as not selected. *)
Theorem onAddToTrackingList_keeps_initial response (repos : JSMap.t bool) s r :
  r ∈ initialTrackedRepos response →
  JSSet.has r (trackedReposPendingDeletion s) = false →
  JSMap.has r (pendingTrackedRepos response (state (run (onAddToTrackingList repos) s).2))
  = true.
Proof.
  intros Hinit Hpending. rewrite onAddToTrackingList_state.
  apply has_true, pendingTrackedRepos_elem_of. simpl.
  apply set_has_false in Hpending. tauto.
Qed.

End remove_and_add.

Section remove_and_add_witnesses.
Import Settings.

Lemma onRemoveTrackedRepo_removes_one_row_witness :
  "e/f" ≠ ""
  ∧ pendingTrackedRepos repositories1 state1 = [("a/b", true); ("e/f", true)]
  ∧ pendingTrackedRepos repositories1
      (state (run (onRemoveTrackedRepo (Some "e/f")) state1).2) = [("a/b", true)]
  ∧ JSMap.has "e/f"
      (pendingTrackedRepos repositories1
         (state (run (onRemoveTrackedRepo (Some "e/f")) state1).2)) = false.
Proof.
  assert ("e/f" ≠ "") as Hne by discriminate.
  split; [exact Hne|]. split; [reflexivity|]. split; [reflexivity|].
  exact (proj1 (proj2 (proj2
    (onRemoveTrackedRepo_removes_one_row workspace1 repositories1 state1 "e/f" Hne)))).
Defined.

Lemma onRemoveTrackedRepo_without_repo_witness :
  (run (onRemoveTrackedRepo (Some "")) state1).2
  = {| state := state1;
       effects := [ConsoleError "The tracked repo to remove was not found"] |}.
Proof.
  apply (onRemoveTrackedRepo_without_repo (Some "") state1). by right.
Defined.

Lemma onAddToTrackingList_keys_witness :
  NoDup (JSMap.keys [("e/f", false); ("g/h", true)])
  ∧ trackedRepos
      (state (run (onAddToTrackingList [("e/f", false); ("g/h", true)]) state1).2)
    = [("a/b", true); ("g/h", true)]
  ∧ (JSMap.has "g/h"
       (trackedRepos
          (state (run (onAddToTrackingList [("e/f", false); ("g/h", true)]) state1).2))
     = true
     ↔ ("g/h", true) ∈ JSMap.entries [("e/f", false); ("g/h", true)]
       ∨ (JSMap.has "g/h" [("e/f", false); ("g/h", true)] = false
          ∧ JSMap.has "g/h" (trackedRepos state1) = true)).
Proof.
  assert (NoDup (JSMap.keys [("e/f", false); ("g/h", true)])) as Hnd.
  { apply (bool_decide_unpack _). vm_compute. exact I. }
  split; [exact Hnd|]. split; [reflexivity|].
  exact (proj1 (onAddToTrackingList_keys
                  [("e/f", false); ("g/h", true)] state1 "g/h" Hnd)).
Defined.

Lemma onAddToTrackingList_keeps_initial_witness :
  "a/b" ∈ initialTrackedRepos repositories1
  ∧ JSSet.has "a/b" (trackedReposPendingDeletion state1) = false
  ∧ JSMap.has "a/b"
      (pendingTrackedRepos repositories1
         (state (run (onAddToTrackingList [("a/b", false)]) state1).2)) = true.
Proof.
  assert ("a/b" ∈ initialTrackedRepos repositories1) as Hinit.
  { apply (bool_decide_unpack _). vm_compute. exact I. }
  split; [exact Hinit|]. split; [reflexivity|].
  exact (onAddToTrackingList_keeps_initial repositories1 [("a/b", false)] state1 "a/b"
           Hinit eq_refl).
Defined.
End remove_and_add_witnesses.

(** ** Sequences of actions *)

Section sequences.
Import Settings.
Import Interaction.
Variable workspace : Workspace.
Implicit Types (response : option WorkspaceRepositories) (s : State) (repo r : string).

(** No action but a submit takes a repo out of the pending deletions or
    changes the workspace name. *)
Lemma step_keeps_pending a s r :
  is_submit a = false →
  (r ∈ JSSet.elements (trackedReposPendingDeletion s) →
   r ∈ JSSet.elements (trackedReposPendingDeletion (step workspace s a)))
  ∧ workspaceName (step workspace s a) = workspaceName s.
Proof.
  destruct a as [env form| |dataset_repo| |repos| | | |env]; intros Ha;
    try discriminate; try done.
  - destruct dataset_repo as [repo|]; [|done].
    destruct (decide (repo = "")) as [->|Hrepo]; [done|].
    rewrite step_RemoveTrackedRepo by done. simpl. split; [|done].
    intros Hr. apply elements_from_list, elem_of_app. by left.
  - by rewrite step_Delete.
Qed.

Lemma steps_keep_pending (actions : list Action) s r :
  Forall (λ a, is_submit a = false) actions →
  (r ∈ JSSet.elements (trackedReposPendingDeletion s) →
   r ∈ JSSet.elements (trackedReposPendingDeletion (steps workspace s actions)))
  ∧ workspaceName (steps workspace s actions) = workspaceName s.
Proof.
  unfold steps. revert s.
  induction actions as [|a actions IH]; intros s Hactions; simpl; [done|].
  apply Forall_cons in Hactions as [Ha Hactions].
  destruct (step_keeps_pending a s r Ha) as [Hpending Hname].
  destruct (IH (step workspace s a) Hactions) as [Hpending' Hname'].
  split; [tauto|congruence].
Qed.

(** X7: a removed repo stays out of the table until the form is
    submitted. After [onRemoveTrackedRepo], no sequence of the other
    actions (selecting the repo again in the modal included) brings its row
    back. *)
Theorem removed_repo_stays_hidden response (actions : list Action) s repo :
  repo ≠ "" →
  Forall (λ a, is_submit a = false) actions →
  JSMap.has repo
    (pendingTrackedRepos response
       (steps workspace (state (run (onRemoveTrackedRepo (Some repo)) s).2) actions))
  = false.
Proof.
  intros Hrepo Hactions.
  apply has_false. rewrite pendingTrackedRepos_elem_of.
  assert (repo ∈ JSSet.elements (trackedReposPendingDeletion
            (state (run (onRemoveTrackedRepo (Some repo)) s).2))) as Hpending.
  { change (state (run (onRemoveTrackedRepo (Some repo)) s).2)
      with (step workspace s (RemoveTrackedRepo (Some repo))).
    rewrite step_RemoveTrackedRepo by done. simpl.
    apply elements_from_list, elem_of_app. right. by apply list_elem_of_singleton. }
  apply (steps_keep_pending actions _ repo Hactions) in Hpending. tauto.
Qed.

(** X8: the workspace name shown in the delete modal changes with a submit
    only: no sequence of the other actions changes [workspaceName]. *)
Theorem workspaceName_changes_on_submit_only (actions : list Action) s :
  Forall (λ a, is_submit a = false) actions →
  workspaceName (steps workspace s actions) = workspaceName s.
Proof. intros Hactions. by apply (steps_keep_pending actions s ""). Qed.
End sequences.

Lemma removed_repo_stays_hidden_witness :
  "a/b" ≠ ""
  ∧ Forall (λ a, Interaction.is_submit a = false)
      [Interaction.AddRepos; Interaction.AddToTrackingList [("a/b", true)];
       Interaction.Delete Settings.env_delete_fails]
  ∧ JSMap.has "a/b" (Settings.pendingTrackedRepos Settings.repositories1 Settings.state1)
    = true
  ∧ JSMap.has "a/b"
      (Settings.pendingTrackedRepos Settings.repositories1
         (Interaction.steps Settings.workspace1
            (Settings.state
               (Settings.run (Settings.onRemoveTrackedRepo (Some "a/b")) Settings.state1).2)
            [Interaction.AddRepos; Interaction.AddToTrackingList [("a/b", true)];
             Interaction.Delete Settings.env_delete_fails]))
    = false.
Proof.
  assert ("a/b" ≠ "") as Hne by discriminate.
  assert (Forall (λ a, Interaction.is_submit a = false)
            [Interaction.AddRepos; Interaction.AddToTrackingList [("a/b", true)];
             Interaction.Delete Settings.env_delete_fails]) as Hactions.
  { repeat constructor. }
  split; [exact Hne|]. split; [exact Hactions|]. split; [reflexivity|].
  exact (removed_repo_stays_hidden Settings.workspace1 Settings.repositories1 _
           Settings.state1 "a/b" Hne Hactions).
Defined.

Lemma workspaceName_changes_on_submit_only_witness :
  Forall (λ a, Interaction.is_submit a = false)
    [Interaction.ClickDeleteWorkspace; Interaction.Delete Settings.env_delete_fails;
     Interaction.CloseDeleteModal; Interaction.RemoveTrackedRepo (Some "a/b")]
  ∧ Settings.workspaceName
      (Interaction.steps Settings.workspace1 Settings.state1
         [Interaction.ClickDeleteWorkspace; Interaction.Delete Settings.env_delete_fails;
          Interaction.CloseDeleteModal; Interaction.RemoveTrackedRepo (Some "a/b")])
    = "Old name".
Proof.
  assert (Forall (λ a, Interaction.is_submit a = false)
    [Interaction.ClickDeleteWorkspace; Interaction.Delete Settings.env_delete_fails;
     Interaction.CloseDeleteModal; Interaction.RemoveTrackedRepo (Some "a/b")]) as Hactions.
  { repeat constructor. }
  split; [exact Hactions|].
  exact (workspaceName_changes_on_submit_only Settings.workspace1 _ Settings.state1 Hactions).
Defined.

(** ** More on submitting *)

Section more_on_submit.
Import Settings.
Variables (env : Env) (workspace : Workspace) (form : FormData) (s : State).

(** What the backend answers to the two requests of this submit. *)
Let update : ApiResult Workspace :=
  saveWorkspace_answer env
    {| save_workspaceId := id workspace;
       save_name := form_name form;
       save_description := form_description form;
       save_sessionToken := sessionToken env;
       save_repos := map (λ repo, {| full_name := repo |}) (JSMap.keys (trackedRepos s)) |}.

Let deletes : ApiResult unit :=
  deleteTrackedRepos_answer env
    {| deleteRepos_workspaceId := id workspace;
       deleteRepos_sessionToken := sessionToken env;
       deleteRepos_repos :=
         map (λ repo, {| full_name := repo |})
             (JSSet.elements (trackedReposPendingDeletion s)) |}.

(** X9: only a submit that succeeded tells the rest of the page. With no
    error, once both requests have settled the handler dispatches the
    workspace-updated event with the saved workspace as its detail, then
    asks for the tracked repositories again, then shows its toast; with an
    error it does neither and only shows the toast. *)
Theorem updateWorkspace_notifies_on_success :
  (error update = None ∧ error deletes = None →
     drop 5 (effects (run (updateWorkspace env workspace form) s).2)
     = [WorkspaceUpdatedEvent (data update); MutateTrackedRepos;
        Toast {| toast_description := "Workspace updated successfully";
                 variant := success |}])
  ∧ (is_Some (error update) ∨ is_Some (error deletes) →
     drop 5 (effects (run (updateWorkspace env workspace form) s).2)
     = [Toast {| toast_description := "Workspace update failed"; variant := danger |}]).
Proof.
  rewrite updateWorkspace_run. cbv zeta. fold update deletes. split.
  - intros H. apply neither_error in H. fold update deletes in H. by rewrite H.
  - intros H. apply either_error in H. fold update deletes in H. by rewrite H.
Qed.

(** X10: after a submit that succeeded, the table is the backend's list
    again: whatever the repositories request answers next, the table holds
    exactly its repos, each once, in its order. *)
Theorem table_after_successful_submit (response : option WorkspaceRepositories) :
  error update = None → error deletes = None →
  pendingTrackedRepos response (state (run (updateWorkspace env workspace form) s).2)
  = JSMap.from_entries (map (λ repo, (repo, true)) (initialTrackedRepos response)).
Proof.
  intros Hupdate Hdeletes. rewrite updateWorkspace_run. cbv zeta.
  fold update deletes. rewrite Hupdate, Hdeletes. simpl.
  rewrite pendingTrackedRepos_filter. simpl.
  unfold JSMap.entries, JSMap.empty. rewrite app_nil_r.
  apply filter_all. intros e _. reflexivity.
Qed.
End more_on_submit.

Lemma table_after_successful_submit_witness :
  Settings.pendingTrackedRepos
    (Some (Settings.Build_WorkspaceRepositories
       (Some [Settings.Build_WorkspaceRepo (Settings.Build_Repo "a/b");
              Settings.Build_WorkspaceRepo (Settings.Build_Repo "e/f");
              Settings.Build_WorkspaceRepo (Settings.Build_Repo "a/b")])))
    (Settings.state
       (Settings.run (Settings.updateWorkspace Settings.env_ok Settings.workspace1
                        Settings.form1) Settings.state1).2)
  = [("a/b", true); ("e/f", true)].
Proof.
  rewrite (table_after_successful_submit Settings.env_ok Settings.workspace1
             Settings.form1 Settings.state1 _ eq_refl eq_refl).
  reflexivity.
Defined.

(** ** Selecting a repo that is pending deletion *)

Section readded_repo.
Import Settings.
Variables (env : Env) (workspace : Workspace) (form : FormData).

End readded_repo.


(** ** More on the pull-request hook *)

Section endpoint_keys.
Import PullRequests.

(** The digits of a number hold no ampersand. *)
Lemma amp_free_pretty_N_go (x : N) (s : string) :
  amp_free s = true → amp_free (pretty_N_go x s) = true.
Proof.
  revert s. induction (N.lt_wf_0 x) as [x _ IH]; intros s Hs.
  assert (x = 0 ∨ 0 < x)%N as [->|Hx] by lia.
  - by rewrite pretty_N_go_0.
  - rewrite pretty_N_go_step by done. apply IH; [by apply N.div_lt|].
    simpl. rewrite Hs, andb_true_r. unfold pretty_N_char. by repeat case_match.
Qed.

Lemma amp_free_number (n : Z) : amp_free (number_to_string n) = true.
Proof.
  unfold number_to_string, pretty, pretty_Z.
  assert (∀ p : positive, amp_free (pretty p) = true) as Hpos.
  { intros p. unfold pretty, pretty_positive, pretty, pretty_N.
    case_decide; [done|]. by apply amp_free_pretty_N_go. }
  destruct n as [|p|p]; [done|apply Hpos|]. simpl. apply Hpos.
Qed.

(** Two strings without ampersand that are followed by one: the first
    ampersand tells where each ends. *)
Lemma amp_free_split (a a' r r' : string) :
  amp_free a = true → amp_free a' = true →
  a +:+ String "&"%char r = a' +:+ String "&"%char r' → a = a' ∧ r = r'.
Proof.
  revert a'. induction a as [|c a IH]; intros [|c' a'] Ha Ha' Heq; simpl in *.
  - by simplify_eq.
  - injection Heq as <- _. done.
  - injection Heq as -> _. done.
  - injection Heq as -> Heq.
    apply andb_true_iff in Ha as [_ Ha]. apply andb_true_iff in Ha' as [_ Ha'].
    destruct (IH a' Ha Ha' Heq) as [-> ->]. done.
Qed.

Lemma append_String c (a b : string) : String c a +:+ b = String c (a +:+ b).
Proof. reflexivity. Qed.

Lemma append_empty (b : string) : "" +:+ b = b.
Proof. reflexivity. Qed.

Lemma append_assoc (a b c : string) : (a +:+ b) +:+ c = a +:+ (b +:+ c).
Proof. induction a as [|x a IH]; [done|]. by rewrite !append_String, IH. Qed.

Lemma truthy_number_false (n : Z) : truthy_number n = false → n = 0.
Proof. unfold truthy_number. intros H. by apply negb_false_iff, Z.eqb_eq in H. Qed.

(** X12: the key of the cache tells the page and the limit: two states of
    the hook that differ in page or limit never share a key, whatever the
    numbers (zero included, where the parameter is left out). *)
Theorem endpointString_inj (st1 st2 : State) :
  endpointString st1 = endpointString st2 → st1 = st2.
Proof.
  unfold endpointString. cbv zeta.
  pose proof (amp_free_number (page st1)) as Hp1.
  pose proof (amp_free_number (page st2)) as Hp2.
  pose proof (amp_free_number (limit st1)) as Hl1.
  pose proof (amp_free_number (limit st2)) as Hl2.
  assert (number_to_string (page st1) = number_to_string (page st2) →
          page st1 = page st2) as Hpage by apply pretty_Z_inj.
  assert (number_to_string (limit st1) = number_to_string (limit st2) →
          limit st1 = limit st2) as Hlimit by apply pretty_Z_inj.
  revert Hp1 Hp2 Hl1 Hl2 Hpage Hlimit.
  generalize (number_to_string (page st1)) (number_to_string (page st2))
             (number_to_string (limit st1)) (number_to_string (limit st2)).
  intros p1 p2 l1 l2 Hp1 Hp2 Hl1 Hl2 Hpage Hlimit.
  assert (amp_free "" = true) as Hempty by done.
  destruct (truthy_number (page st1)) eqn:Hz1, (truthy_number (page st2)) eqn:Hz2,
           (truthy_number (limit st1)) eqn:Hy1, (truthy_number (limit st2)) eqn:Hy2;
    try apply truthy_number_false in Hz1; try apply truthy_number_false in Hz2;
    try apply truthy_number_false in Hy1; try apply truthy_number_false in Hy2;
    unfold baseEndpoint; intros Heq;
    repeat (rewrite ?append_assoc, ?append_String, ?append_empty in Heq);
    simplify_eq/=.
  all: repeat match goal with
    | H : ?a +:+ String "&"%char ?r = ?b +:+ String "&"%char ?r' |- _ =>
        apply amp_free_split in H as [? ?]; [|done|done]; simplify_eq/=
    end.
  all: destruct st1, st2; simpl in *; f_equal; auto; congruence.
Qed.
End endpoint_keys.

Section hook_edges.
Import PullRequests.
Context {DbRepoPR : Type}.
Implicit Types (st : State) (useSWR : string → SWRResponse DbRepoPR).

(** X13: a page or a limit of zero is falsy, and its parameter is left out
    of the query string; without the page the query starts with the
    ampersand of the next parameter. *)
Theorem endpointString_zero st :
  (page st = 0 → limit st ≠ 0 →
     endpointString st
     = "prs/list?&limit=" +:+ number_to_string (limit st) +:+ "&stars=1000")
  ∧ (page st ≠ 0 → limit st = 0 →
     endpointString st
     = "prs/list?page=" +:+ number_to_string (page st) +:+ "&stars=1000")
  ∧ (page st = 0 → limit st = 0 → endpointString st = "prs/list?&stars=1000").
Proof.
  unfold endpointString. split; [|split].
  - intros -> Hl. by rewrite (truthy_number_true _ Hl).
  - intros Hp ->. rewrite (truthy_number_true _ Hp).
    generalize (number_to_string (page st)). intros p. reflexivity.
  - by intros -> ->.
Qed.

Example endpointString_page_zero :
  endpointString (setPage (NewValue 0) initialState) = "prs/list?&limit=500&stars=1000".
Proof. reflexivity. Qed.

Example endpointString_previous_page :
  endpointString (setPage (Updater (λ page, page - 1)) initialState)
  = "prs/list?&limit=500&stars=1000".
Proof. reflexivity. Qed.

(** X14: loading and error exclude each other, and data the cache still
    holds is handed out whatever else: the hook never reports both
    [isLoading] and [isError]; while it reports [isLoading] its data is
    empty; and when the cache holds data together with an error, the hook
    returns that data and meta with [isError] and without [isLoading]. *)
Theorem usePullRequests_states st useSWR :
  let answer := useSWR (endpointString st) in
  let hook := usePullRequests useSWR st in
  isLoading hook && isError hook = false
  ∧ (isLoading hook = true → data hook = [] ∧ meta hook = emptyMeta)
  ∧ (∀ response e,
       swr_data answer = Some response → swr_error answer = Some e →
       data hook = response_data response
       ∧ meta hook = response_meta response
       ∧ isError hook = true ∧ isLoading hook = false).
Proof.
  intros answer hook. subst hook. unfold usePullRequests. fold answer. simpl.
  destruct (swr_data answer) as [d|], (swr_error answer) as [e|]; simpl;
    (split; [done|split; [done|]]); intros response e' Hd He; by simplify_eq.
Qed.

Example usePullRequests_stale_data :
  usePullRequests
    (λ _, {| swr_data :=
               Some {| response_data := ["pr 1"];
                       response_meta := {| itemCount := 1; meta_limit := 500; meta_page := 1;
                                           hasNextPage := false; hasPreviousPage := false;
                                           pageCount := 1 |} |};
             swr_error := Some {| message := "offline" |} |})
    initialState
  = {| data := ["pr 1"];
       meta := {| itemCount := 1; meta_limit := 500; meta_page := 1;
                  hasNextPage := false; hasPreviousPage := false; pageCount := 1 |};
       isLoading := false; isError := true; hook_page := 1 |}.
Proof. reflexivity. Qed.
End hook_edges.

(** ** More on loading the page *)

Section server_fetch.
Import Settings.

(** X15: the server makes its one fetch for the path "workspaces/" followed
    by the route parameter, with the session's access token as bearer token
    (the empty string without a session): the result is the same for any
    [fetchApiData] that answers alike at that path and token. Without the
    route parameter the path ends in "undefined". *)
Theorem getServerSideProps_fetch (workspaceId : option string) (session : option Session)
    (fetch fetch' : string → string → ApiResult Workspace) :
  fetch ("workspaces/" +:+ default "undefined" workspaceId)
        (default "" (access_token <$> session))
  = fetch' ("workspaces/" +:+ default "undefined" workspaceId)
           (default "" (access_token <$> session)) →
  getServerSideProps
    {| params_workspaceId := workspaceId; getSession := session; fetchApiData := fetch |}
  = getServerSideProps
      {| params_workspaceId := workspaceId; getSession := session; fetchApiData := fetch' |}.
Proof.
  intros Hsame. unfold getServerSideProps, interpolate. simpl.
  destruct session as [sess|]; simpl in *; by rewrite Hsame.
Qed.

Lemma getServerSideProps_fetch_witness :
  getServerSideProps
    {| params_workspaceId := None; getSession := None;
       fetchApiData := λ path bearerToken,
         if bool_decide (path = "workspaces/undefined" ∧ bearerToken = "")
         then failed 404 else ok (Some workspace1) |}
  = getServerSideProps
      {| params_workspaceId := None; getSession := None;
         fetchApiData := λ _ _, failed 404 |}.
Proof.
  apply (getServerSideProps_fetch None None). reflexivity.
Defined.
End server_fetch.

(** ** From a removal to the requests *)

Section removal_to_requests.
Import Settings.
Variables (env : Env) (workspace : Workspace) (form : FormData).

(** X16: a repo removed in the table is what the next submit asks the
    backend to delete, and not to save: after [onRemoveTrackedRepo], the
    submit's deletion request lists the repo and its save request does
    not. *)
Theorem removed_repo_is_sent_for_deletion (s : State) (repo : string) :
  repo ≠ "" →
  let s' := state (run (onRemoveTrackedRepo (Some repo)) s).2 in
  ∃ save delete,
    requests (effects (run (updateWorkspace env workspace form) s').2)
    = [SaveWorkspace save; DeleteTrackedRepos delete]
    ∧ {| full_name := repo |} ∈ deleteRepos_repos delete
    ∧ {| full_name := repo |} ∉ save_repos save.
Proof.
  intros Hrepo s'.
  destruct (onRemoveTrackedRepo_facts workspace s repo Hrepo) as [Hgone Hpending].
  fold s' in Hgone, Hpending.
  rewrite updateWorkspace_run. cbv zeta.
  eexists _, _. split; [by destruct (truthy _ || truthy _)|].
  cbv [save_repos deleteRepos_repos]. split.
  - apply list_elem_of_fmap. by exists repo.
  - intros Hin. apply list_elem_of_fmap in Hin as [r [[= <-] Hr]]. done.
Qed.
End removal_to_requests.

Lemma removed_repo_is_sent_for_deletion_witness :
  "e/f" ≠ ""
  ∧ ∃ save delete,
      Settings.requests (Settings.effects
        (Settings.run
           (Settings.updateWorkspace Settings.env_ok Settings.workspace1 Settings.form1)
           (Settings.state
              (Settings.run (Settings.onRemoveTrackedRepo (Some "e/f"))
                            Settings.state1).2)).2)
      = [Settings.SaveWorkspace save; Settings.DeleteTrackedRepos delete]
      ∧ Settings.Build_Repo "e/f" ∈ Settings.deleteRepos_repos delete
      ∧ Settings.Build_Repo "e/f" ∉ Settings.save_repos save.
Proof.
  assert ("e/f" ≠ "") as Hne by discriminate.
  split; [exact Hne|].
  exact (removed_repo_is_sent_for_deletion Settings.env_ok Settings.workspace1
           Settings.form1 Settings.state1 "e/f" Hne).
Defined.

(** Going back from page 2 gives the key of page 1, hence page 1. *)
Lemma endpointString_inj_witness :
  PullRequests.endpointString
    (PullRequests.setPage (PullRequests.Updater (λ page, page - 1))
       (PullRequests.Build_State 2 500))
  = PullRequests.endpointString PullRequests.initialState
  ∧ PullRequests.setPage (PullRequests.Updater (λ page, page - 1))
      (PullRequests.Build_State 2 500)
    = PullRequests.initialState.
Proof.
  split; [reflexivity|].
  exact (endpointString_inj
           (PullRequests.setPage (PullRequests.Updater (λ page, page - 1))
              (PullRequests.Build_State 2 500))
           PullRequests.initialState eq_refl).
Defined.
